(** * Collection manager over a vector store: model and verification

    A shallow embedding of [qdrant_manager.py] (the [QdrantCollectionManager]
    class) and of the REST handlers of [collections_api.py].

    - Python values that travel through payloads and metadata are a small
      JSON-like type [pyval] (floating point numbers are left out).
    - Every manager method is a computation in the monad [M]: it threads the
      state of the vector store and either returns a value or raises a Python
      exception.  Mutations made before an exception is raised are kept, as in
      Python.
    - The vector store behind [QdrantClient] is an in-memory store; every
      client call is appended to a trace, so that "which calls were issued"
      is a statement about the final state. What the store alone decides
      (whether it accepts a creation, whether it builds an index, how it
      combines metadata on an update) is a parameter of the model.
    - The pydantic model [CollectionStats] validates the two fields that are
      read from the metadata of a collection, and raises when one of them
      is neither a string nor null.
    - Name resolution is part of the model: a global name is looked up in the
      module namespace and a method in the class namespace, and a failed
      lookup raises [NameError] or [AttributeError]. *)

From Stdlib Require Import List String Ascii ZArith Bool Lia Arith.
Import ListNotations.
Open Scope string_scope.
Open Scope Z_scope.

(** ** Python values *)

#[local] Unset Elimination Schemes.
Inductive pyval : Type :=
| PNone
| PBool (b : bool)
| PInt (z : Z)
| PStr (s : string)
| PList (l : list pyval)
| PDict (d : list (string * pyval)).
#[local] Set Elimination Schemes.

(** A Python [dict] with string keys, in insertion order. *)
Definition pydict := list (string * pyval).

Fixpoint dict_lookup {A} (k : string) (d : list (string * A)) : option A :=
  match d with
  | [] => None
  | (k', v) :: d' => if String.eqb k k' then Some v else dict_lookup k d'
  end.

(** [k in d]. *)
Definition dict_mem {A} (k : string) (d : list (string * A)) : bool :=
  match dict_lookup k d with
  | Some _ => true
  | None => false
  end.

(** [d.get(k)]: [None] when the key is absent. *)
Definition dict_get (d : pydict) (k : string) : pyval :=
  match dict_lookup k d with
  | Some v => v
  | None => PNone
  end.

(** [d.get(k, default)]. *)
Definition dict_get_default (d : pydict) (k : string) (default : pyval) : pyval :=
  match dict_lookup k d with
  | Some v => v
  | None => default
  end.

(** [d[k] = v]: overwrite in place, or append a new key. *)
Fixpoint dict_set (k : string) (v : pyval) (d : pydict) : pydict :=
  match d with
  | [] => [(k, v)]
  | (k', v') :: d' =>
      if String.eqb k k' then (k', v) :: d' else (k', v') :: dict_set k v d'
  end.

(** [{**a, **b}]. *)
Definition dict_merge (a b : pydict) : pydict :=
  fold_left (fun acc kv => dict_set (fst kv) (snd kv) acc) b a.

(** [x or {}] on an optional dict: [None] and the empty dict are both falsy. *)
Definition or_empty (d : option pydict) : pydict :=
  match d with
  | Some d' => d'
  | None => []
  end.

(** [x or 0] on an optional integer. *)
Definition or_zero (z : option Z) : Z :=
  match z with
  | Some n => n
  | None => 0
  end.

(** Decimal rendering of an integer inside an f-string. *)
Fixpoint nat_digits (fuel n : nat) (acc : string) : string :=
  match fuel with
  | O => acc
  | S fuel' =>
      let d := String (ascii_of_nat (48 + Nat.modulo n 10)) acc in
      match Nat.div n 10 with
      | O => d
      | q => nat_digits fuel' q d
      end
  end.

Definition str_of_nat (n : nat) : string := nat_digits (S n) n "".

(** ** Exceptions and the manager monad *)

Inductive exn : Type :=
| ValueError (msg : string)
| TypeError (msg : string)
| NameError (name : string)
| AttributeError (obj attr : string)
| StoreError (msg : string)
| ValidationError (model : string) (fields : list string).

(** [isinstance(e, ValueError)]: a pydantic [ValidationError] is a
    [ValueError]. *)
Definition is_ValueError (e : exn) : bool :=
  match e with
  | ValueError _ => true
  | ValidationError _ _ => true
  | _ => false
  end.

(** [str(e)]. For a [ValidationError] this is the first line of pydantic's
    text and the names of the refused fields; the explanation pydantic
    prints under each field is left out. *)
Definition exn_str (e : exn) : string :=
  match e with
  | ValueError m => m
  | TypeError m => m
  | NameError n => "name '" ++ n ++ "' is not defined"
  | AttributeError o a => "'" ++ o ++ "' object has no attribute '" ++ a ++ "'"
  | StoreError m => m
  | ValidationError model fields =>
      str_of_nat (List.length fields) ++ " validation error"
        ++ (if Nat.eqb (List.length fields) 1 then "" else "s")
        ++ " for " ++ model
        ++ String.concat "" (map (fun f => String "010"%char f) fields)
  end.

(** The outcome of running a computation: a value, a raised exception, or a
    loop that was cut because its fuel ran out. *)
Inductive result (A : Type) : Type :=
| Ok (a : A)
| Raise (e : exn)
| NoFuel.
Arguments Ok {A} a.
Arguments Raise {A} e.
Arguments NoFuel {A}.

(** ** The vector store behind [QdrantClient] *)

(** [qdrant_client.models.Distance]. *)
Inductive Distance : Type := COSINE | EUCLID | DOT | MANHATTAN.

(** [Distance.<member>.name]. *)
Definition Distance_name (d : Distance) : string :=
  match d with
  | COSINE => "COSINE"
  | EUCLID => "EUCLID"
  | DOT => "DOT"
  | MANHATTAN => "MANHATTAN"
  end.

(** [qdrant_client.models.PayloadSchemaType], the members the manager uses. *)
Inductive PayloadSchemaType : Type := KEYWORD | INTEGER.

Inductive CollectionStatus : Type := GREEN | YELLOW | GREY | RED.

Definition CollectionStatus_name (s : CollectionStatus) : string :=
  match s with
  | GREEN => "GREEN"
  | YELLOW => "YELLOW"
  | GREY => "GREY"
  | RED => "RED"
  end.

Record VectorParams : Type := { size : Z; distance : Distance }.

Record CollectionParams : Type := { vectors : VectorParams }.

Record CollectionConfig : Type :=
  { params : CollectionParams; metadata : option pydict }.

(** What [client.get_collection(name)] returns. *)
Record CollectionInfo : Type :=
  { status : CollectionStatus;
    points_count : option Z;
    indexed_vectors_count : option Z;
    config : CollectionConfig }.

(** A point as [scroll] returns it (vectors are never requested). *)
Record Point : Type := { id : Z; payload : option pydict }.

(** [Filter(must=[FieldCondition(key=..., match=MatchValue(value=...))])]. *)
Record FieldCondition : Type := { key : string; match_value : string }.
Record Filter : Type := { must : list FieldCondition }.

(** A collection as the store holds it.  [col_points_count] is the count the
    store reports, which the client types as optional. *)
Record Collection : Type :=
  { col_name : string;
    col_vectors : VectorParams;
    col_metadata : option pydict;
    col_status : CollectionStatus;
    col_points_count : option Z;
    col_indexed_vectors_count : option Z;
    col_points : list Point;
    col_payload_schema : list (string * PayloadSchemaType) }.

(** The calls the manager issues on its client. *)
Inductive Call : Type :=
| GetCollections
| GetCollection (name : string)
| CreateCollection (name : string) (v : VectorParams) (m : option pydict)
| CreatePayloadIndex (name field : string) (schema : PayloadSchemaType)
| UpdateCollection (name : string) (m : pydict)
| DeleteCollection (name : string)
| Scroll (name : string) (f : option Filter) (limit : Z)
         (offset : option nat) (with_payload : bool)
| DeletePoints (name : string) (f : Filter).

Record Store : Type := { collections : list Collection; trace : list Call }.

(** Computations of the manager: state passing over the store, with
    exceptions. *)
Definition M (A : Type) : Type := Store -> result A * Store.

Definition ret {A} (a : A) : M A := fun st => (Ok a, st).

Definition bind {A B} (m : M A) (k : A -> M B) : M B :=
  fun st =>
    match m st with
    | (Ok a, st') => k a st'
    | (Raise e, st') => (Raise e, st')
    | (NoFuel, st') => (NoFuel, st')
    end.

Definition raise {A} (e : exn) : M A := fun st => (Raise e, st).

Definition out_of_fuel {A} : M A := fun st => (NoFuel, st).

(** [try: m  except Exception as e: h e]. *)
Definition try_except {A} (m : M A) (h : exn -> M A) : M A :=
  fun st =>
    match m st with
    | (Raise e, st') => h e st'
    | r => r
    end.

Declare Scope monad_scope.
Delimit Scope monad_scope with monad.
Notation "x <- m ;; k" := (bind m (fun x => k))
  (at level 61, m at next level, right associativity) : monad_scope.
Notation "m ;;; k" := (bind m (fun _ => k))
  (at level 61, right associativity) : monad_scope.
Open Scope monad_scope.

(** [for x in l: body x]. *)
Fixpoint for_each {A} (l : list A) (body : A -> M unit) : M unit :=
  match l with
  | [] => ret tt
  | x :: l' => body x ;;; for_each l' body
  end.

Definition log (c : Call) : M unit :=
  fun st => (Ok tt, {| collections := collections st; trace := trace st ++ [c] |}).

Definition get_cols : M (list Collection) := fun st => (Ok (collections st), st).

Definition put_cols (cs : list Collection) : M unit :=
  fun st => (Ok tt, {| collections := cs; trace := trace st |}).

Fixpoint find_collection (name : string) (cs : list Collection) : option Collection :=
  match cs with
  | [] => None
  | c :: cs' => if String.eqb name (col_name c) then Some c else find_collection name cs'
  end.

(** Replace the first collection called [name] by [f] of it. *)
Fixpoint modify_collection (name : string) (f : Collection -> Collection)
         (cs : list Collection) : list Collection :=
  match cs with
  | [] => []
  | c :: cs' =>
      if String.eqb name (col_name c) then f c :: cs'
      else c :: modify_collection name f cs'
  end.

Definition remove_collection (name : string) (cs : list Collection) : list Collection :=
  filter (fun c => negb (String.eqb name (col_name c))) cs.

Definition not_found_in_store {A} (name : string) : M A :=
  raise (StoreError ("Not found: Collection `" ++ name ++ "` doesn't exist!")).

(** A field condition holds of a payload when the field is the value, or a
    list that contains it. *)
Definition is_str (v : string) (x : pyval) : bool :=
  match x with
  | PStr s => String.eqb s v
  | _ => false
  end.

Definition condition_holds (c : FieldCondition) (d : pydict) : bool :=
  match dict_lookup (key c) d with
  | Some (PList l) => existsb (is_str (match_value c)) l
  | Some x => is_str (match_value c) x
  | None => false
  end.

Definition matches (f : Filter) (p : Point) : bool :=
  forallb (fun c => condition_holds c (or_empty (payload p))) (must f).

Definition select (f : option Filter) (pts : list Point) : list Point :=
  match f with
  | Some f' => filter (matches f') pts
  | None => pts
  end.

Definition project (with_payload : bool) (p : Point) : Point :=
  if with_payload then p else {| id := id p; payload := None |}.

Definition or_start (offset : option nat) : nat :=
  match offset with
  | Some n => n
  | None => O
  end.

(** One page of a scroll: the cursor is a position in the scan order of the
    selected points; the next cursor is [None] on the last page. *)
Definition scroll_page (pts : list Point) (f : option Filter) (limit : Z)
           (offset : option nat) (with_payload : bool)
  : list Point * option nat :=
  let rest := skipn (or_start offset) (select f pts) in
  let n := Z.to_nat limit in
  (map (project with_payload) (firstn n rest),
   if Nat.ltb n (List.length rest) then Some (or_start offset + n)%nat else None).

Definition fresh_collection (name : string) (v : VectorParams)
           (m : option pydict) : Collection :=
  {| col_name := name;
     col_vectors := v;
     col_metadata := m;
     col_status := GREEN;
     col_points_count := Some 0;
     col_indexed_vectors_count := Some 0;
     col_points := [];
     col_payload_schema := [] |}.

Definition with_metadata (m : option pydict) (c : Collection) : Collection :=
  {| col_name := col_name c;
     col_vectors := col_vectors c;
     col_metadata := m;
     col_status := col_status c;
     col_points_count := col_points_count c;
     col_indexed_vectors_count := col_indexed_vectors_count c;
     col_points := col_points c;
     col_payload_schema := col_payload_schema c |}.

Definition with_index (field : string) (s : PayloadSchemaType) (c : Collection)
  : Collection :=
  {| col_name := col_name c;
     col_vectors := col_vectors c;
     col_metadata := col_metadata c;
     col_status := col_status c;
     col_points_count := col_points_count c;
     col_indexed_vectors_count := col_indexed_vectors_count c;
     col_points := col_points c;
     col_payload_schema := col_payload_schema c ++ [(field, s)] |}.

Definition without_points (f : Filter) (c : Collection) : Collection :=
  let kept := filter (fun p => negb (matches f p)) (col_points c) in
  {| col_name := col_name c;
     col_vectors := col_vectors c;
     col_metadata := col_metadata c;
     col_status := col_status c;
     col_points_count := Some (Z.of_nat (List.length kept));
     col_indexed_vectors_count := col_indexed_vectors_count c;
     col_points := kept;
     col_payload_schema := col_payload_schema c |}.

Definition info_of (c : Collection) : CollectionInfo :=
  {| status := col_status c;
     points_count := col_points_count c;
     indexed_vectors_count := col_indexed_vectors_count c;
     config := {| params := {| vectors := col_vectors c |};
                  metadata := col_metadata c |} |}.

(** ** Name resolution *)

(** The names bound at module level in [qdrant_manager.py]: its imports, its
    constants, its classes and functions. *)
Definition module_globals : list string :=
  [ "os"; "List"; "Dict"; "Any"; "Optional"; "datetime";
    "QdrantClient"; "Distance"; "VectorParams"; "PayloadSchemaType";
    "BaseModel";
    "QDRANT_HOST"; "QDRANT_PORT"; "DEFAULT_VECTOR_SIZE"; "DEFAULT_DISTANCE";
    "CollectionCreateRequest"; "CollectionUpdateRequest"; "CollectionStats";
    "DEFAULT_PAYLOAD_INDEXES"; "QdrantCollectionManager";
    "_collection_manager"; "get_collection_manager" ].

(** The built-in names the module refers to. *)
Definition builtins : list string :=
  [ "print"; "len"; "int"; "list"; "super"; "str"; "bool";
    "ValueError"; "Exception"; "True"; "False"; "None" ].

Definition name_bound (n : string) : bool :=
  existsb (String.eqb n) module_globals || existsb (String.eqb n) builtins.

(** Evaluating a global name: [NameError] when it is bound nowhere. *)
Definition load_global (n : string) : M unit :=
  if name_bound n then ret tt else raise (NameError n).

(** ** Models of the request and response bodies *)

Definition DEFAULT_VECTOR_SIZE : Z := 768.
Definition DEFAULT_DISTANCE : Distance := COSINE.

Record CollectionCreateRequest : Type :=
  { req_name : string;
    req_description : option string;
    req_vector_size : Z;
    req_distance : string }.

Record CollectionUpdateRequest : Type := { upd_description : option string }.

(** An optional string as a Python value. *)
Definition opt_str (s : option string) : pyval :=
  match s with
  | Some x => PStr x
  | None => PNone
  end.

Module CollectionStats.
Record t : Type :=
  { name : string;
    description : option string;
    vector_size : Z;
    distance : string;
    points_count : Z;
    indexed_vectors_count : Z;
    status : string;
    created_at : option string }.

(** [stats.dict()]. *)
Definition dict (s : t) : pydict :=
  [ ("name", PStr (name s));
    ("description", opt_str (description s));
    ("vector_size", PInt (vector_size s));
    ("distance", PStr (distance s));
    ("points_count", PInt (points_count s));
    ("indexed_vectors_count", PInt (indexed_vectors_count s));
    ("status", PStr (status s));
    ("created_at", opt_str (created_at s)) ].
End CollectionStats.

(** The validation of a field declared [Optional[str]]: a string or [None]
    is kept, any other value is an error (no coercion). *)
Definition optional_str (v : pyval) : option (option string) :=
  match v with
  | PNone => Some None
  | PStr s => Some (Some s)
  | _ => None
  end.

Definition is_optional_str (v : pyval) : bool :=
  match optional_str v with
  | Some _ => true
  | None => false
  end.

(** The fields of a model whose value fails that validation. *)
Definition invalid_fields (fields : list (string * pyval)) : list string :=
  map fst (filter (fun fv => negb (is_optional_str (snd fv))) fields).

(** ** Documents: the grouping of points by filename *)

(** One entry of the [documents] dict of [list_documents_in_collection]. *)
Record Document : Type :=
  { filename : pyval;
    document_hash : pyval;
    format : pyval;
    total_pages : pyval;
    total_chunks : pyval;
    date : pyval;
    chunks_count : Z }.

(** Keys of a Python dict: hashable values up to Python's equality, under
    which [True] is [1] and [False] is [0]. *)
Inductive hkey : Type :=
| HNone
| HNum (z : Z)
| HStr (s : string).

Definition hkey_eqb (a b : hkey) : bool :=
  match a, b with
  | HNone, HNone => true
  | HNum x, HNum y => Z.eqb x y
  | HStr x, HStr y => String.eqb x y
  | _, _ => false
  end.

(** Hashing a value to use it as a key; lists and dicts are unhashable. *)
Definition hash_key (v : pyval) : result hkey :=
  match v with
  | PNone => Ok HNone
  | PBool b => Ok (HNum (if b then 1 else 0))
  | PInt z => Ok (HNum z)
  | PStr s => Ok (HStr s)
  | PList _ => Raise (TypeError "unhashable type: 'list'")
  | PDict _ => Raise (TypeError "unhashable type: 'dict'")
  end.

(** The [documents] dict, in insertion order. *)
Definition documents_dict := list (hkey * Document).

(** [k in documents]. *)
Definition docs_mem (k : hkey) (ds : documents_dict) : bool :=
  existsb (fun kd => hkey_eqb k (fst kd)) ds.

Definition incr_chunks (d : Document) : Document :=
  {| filename := filename d;
     document_hash := document_hash d;
     format := format d;
     total_pages := total_pages d;
     total_chunks := total_chunks d;
     date := date d;
     chunks_count := chunks_count d + 1 |}.

(** [documents[k]["chunks_count"] += 1]. *)
Fixpoint docs_incr (k : hkey) (ds : documents_dict) : documents_dict :=
  match ds with
  | [] => []
  | (k', d) :: ds' =>
      if hkey_eqb k k' then (k', incr_chunks d) :: ds'
      else (k', d) :: docs_incr k ds'
  end.

(** [payload.get("filename", "unknown")] of [point.payload or {}]. *)
Definition filename_of (point : Point) : pyval :=
  dict_get_default (or_empty (payload point)) "filename" (PStr "unknown").

(** The entry created at the first point of a filename. *)
Definition new_document (point : Point) : Document :=
  let payload := or_empty (payload point) in
  {| filename := filename_of point;
     document_hash := dict_get payload "document_hash";
     format := dict_get payload "format";
     total_pages := dict_get payload "total_pages";
     total_chunks := dict_get payload "total_chunks";
     date := dict_get payload "date";
     chunks_count := 0 |}.

(** The loop [for point in all_points: ...] over the [documents] dict. *)
Fixpoint group_points (all_points : list Point) (documents : documents_dict)
  : result documents_dict :=
  match all_points with
  | [] => Ok documents
  | point :: rest =>
      match hash_key (filename_of point) with
      | Ok k =>
          let documents1 :=
            if negb (docs_mem k documents)
            then (documents ++ [(k, new_document point)])%list
            else documents in
          group_points rest (docs_incr k documents1)
      | Raise e => Raise e
      | NoFuel => NoFuel
      end
  end.

(** The dict that [list_documents_in_collection] returns. *)
Record DocumentListing : Type :=
  { collection_name : string;
    total_documents : Z;
    total_points : Z;
    documents : list Document }.

Definition Document_dict (d : Document) : pydict :=
  [ ("filename", filename d);
    ("document_hash", document_hash d);
    ("format", format d);
    ("total_pages", total_pages d);
    ("total_chunks", total_chunks d);
    ("date", date d);
    ("chunks_count", PInt (chunks_count d)) ].

Definition DocumentListing_dict (r : DocumentListing) : pydict :=
  [ ("collection_name", PStr (collection_name r));
    ("total_documents", PInt (total_documents r));
    ("total_points", PInt (total_points r));
    ("documents", PList (map (fun d => PDict (Document_dict d)) (documents r))) ].

Definition lift {A} (r : result A) : M A := fun st => (r, st).

Section Manager.

(** What the manager cannot decide: whether the store refuses to build an
    index on a field of a collection, how the store combines the metadata
    it holds with the metadata an update sends, the clock, and whether the
    store accepts a creation. *)
Variable index_fails : string -> string -> bool.
Variable merge_metadata : option pydict -> pydict -> option pydict.
Variable now : string.

(** What the store answers to the creation of a collection of a given name
    and vector configuration: [None] when it accepts them, the exception the
    call raises when it refuses them (a vector size out of its range, a name
    it does not allow). *)
Variable create_refused : string -> VectorParams -> option exn.

(** *** Client calls *)

Definition client_get_collections : M (list string) :=
  log GetCollections ;;;
  cs <- get_cols ;;
  ret (map col_name cs).

Definition client_get_collection (name : string) : M CollectionInfo :=
  log (GetCollection name) ;;;
  cs <- get_cols ;;
  match find_collection name cs with
  | Some c => ret (info_of c)
  | None => not_found_in_store name
  end.

Definition client_create_collection (name : string) (vectors_config : VectorParams)
           (metadata : option pydict) : M bool :=
  log (CreateCollection name vectors_config metadata) ;;;
  match create_refused name vectors_config with
  | Some e => raise e
  | None =>
      cs <- get_cols ;;
      match find_collection name cs with
      | Some _ =>
          raise (StoreError
                   ("Wrong input: Collection `" ++ name ++ "` already exists!"))
      | None =>
          put_cols (cs ++ [fresh_collection name vectors_config metadata]) ;;;
          ret true
      end
  end.

Definition client_create_payload_index (name field_name : string)
           (field_schema : PayloadSchemaType) : M unit :=
  log (CreatePayloadIndex name field_name field_schema) ;;;
  cs <- get_cols ;;
  match find_collection name cs with
  | Some _ =>
      if index_fails name field_name
      then raise (StoreError ("Index on `" ++ field_name ++ "` was not created"))
      else put_cols (modify_collection name (with_index field_name field_schema) cs)
  | None => not_found_in_store name
  end.

Definition client_update_collection (name : string) (metadata : pydict) : M bool :=
  log (UpdateCollection name metadata) ;;;
  cs <- get_cols ;;
  match find_collection name cs with
  | Some c =>
      put_cols (modify_collection name
                  (with_metadata (merge_metadata (col_metadata c) metadata)) cs) ;;;
      ret true
  | None => not_found_in_store name
  end.

Definition client_delete_collection (name : string) : M bool :=
  log (DeleteCollection name) ;;;
  cs <- get_cols ;;
  put_cols (remove_collection name cs) ;;;
  ret (existsb (fun c => String.eqb name (col_name c)) cs).

Definition client_scroll (name : string) (scroll_filter : option Filter)
           (limit : Z) (offset : option nat) (with_payload : bool)
  : M (list Point * option nat) :=
  log (Scroll name scroll_filter limit offset with_payload) ;;;
  cs <- get_cols ;;
  match find_collection name cs with
  | Some c => ret (scroll_page (col_points c) scroll_filter limit offset with_payload)
  | None => not_found_in_store name
  end.

Definition client_delete (name : string) (points_selector : Filter) : M unit :=
  log (DeletePoints name points_selector) ;;;
  cs <- get_cols ;;
  match find_collection name cs with
  | Some _ => put_cols (modify_collection name (without_points points_selector) cs)
  | None => not_found_in_store name
  end.

(** *** [QdrantCollectionManager] *)

Definition DEFAULT_PAYLOAD_INDEXES : list (string * PayloadSchemaType) :=
  [ ("document_hash", KEYWORD);
    ("filename", KEYWORD);
    ("format", KEYWORD);
    ("chunk", INTEGER);
    ("total_pages", INTEGER);
    ("date", KEYWORD) ].

Definition distance_map : list (string * Distance) :=
  [ ("Cosine", COSINE);
    ("Euclid", EUCLID);
    ("Dot", DOT) ].

(** [distance_map.get(distance, Distance.COSINE)]. *)
Definition distance_metric (distance : string) : Distance :=
  match dict_lookup distance distance_map with
  | Some d => d
  | None => COSINE
  end.

Definition collection_exists (name : string) : M bool :=
  names <- client_get_collections ;;
  ret (existsb (String.eqb name) names).

Definition msg_ya_existe (name : string) : string :=
  "La colección '" ++ name ++ "' ya existe".

Definition msg_no_existe (name : string) : string :=
  "La colección '" ++ name ++ "' no existe".

Definition msg_tiene_vectores (name : string) : string :=
  "La colección '" ++ name ++ "' tiene vectores. Use force=true.".

Definition msg_sin_puntos (filename collection_name : string) : string :=
  "No se encontraron puntos con filename='" ++ filename
    ++ "' en la colección '" ++ collection_name ++ "'".

Definition success (name message : string) : pydict :=
  [ ("success", PBool true);
    ("collection_name", PStr name);
    ("message", PStr message) ].

Definition create_collection (name : string) (description : option string)
           (vector_size : Z) (distance : string) : M pydict :=
  exists_ <- collection_exists name ;;
  if exists_ then raise (ValueError (msg_ya_existe name)) else
  let distance_metric := distance_metric distance in
  let metadata :=
    [ ("description", opt_str description);
      ("created_at", PStr now) ] in
  client_create_collection name
    (Build_VectorParams vector_size distance_metric)
    (Some metadata) ;;;
  for_each DEFAULT_PAYLOAD_INDEXES (fun fs =>
    try_except
      (client_create_payload_index name (fst fs) (snd fs))
      (fun e => ret tt)) ;;;
  ret (success name ("Colección '" ++ name ++ "' creada correctamente")).

(** The construction [CollectionStats(name=..., description=..., ...)]:
    pydantic validates the two fields read from the metadata and raises one
    [ValidationError] that names every field it refused. The other fields
    are of their declared type by construction. *)
Definition stats_of (name : string) (info : CollectionInfo)
  : result CollectionStats.t :=
  let metadata := or_empty (metadata (config info)) in
  let description := dict_get metadata "description" in
  let created_at := dict_get metadata "created_at" in
  match optional_str description, optional_str created_at with
  | Some description', Some created_at' =>
      Ok {| CollectionStats.name := name;
            CollectionStats.description := description';
            CollectionStats.vector_size := size (vectors (params (config info)));
            CollectionStats.distance :=
              Distance_name (distance (vectors (params (config info))));
            CollectionStats.points_count := or_zero (points_count info);
            CollectionStats.indexed_vectors_count :=
              or_zero (indexed_vectors_count info);
            CollectionStats.status := CollectionStatus_name (status info);
            CollectionStats.created_at := created_at' |}
  | _, _ =>
      Raise (ValidationError "CollectionStats"
               (invalid_fields [ ("description", description);
                                 ("created_at", created_at) ]))
  end.

Fixpoint list_collections_loop (names : list string)
         (result : list CollectionStats.t) : M (list CollectionStats.t) :=
  match names with
  | [] => ret result
  | col :: names' =>
      info <- client_get_collection col ;;
      stats <- lift (stats_of col info) ;;
      list_collections_loop names' (result ++ [stats])
  end.

Definition list_collections : M (list CollectionStats.t) :=
  names <- client_get_collections ;;
  list_collections_loop names [].

Definition get_collection_info (name : string) : M CollectionStats.t :=
  exists_ <- collection_exists name ;;
  if negb exists_ then raise (ValueError (msg_no_existe name)) else
  info <- client_get_collection name ;;
  lift (stats_of name info).

Definition update_collection (name : string) (description : option string)
  : M pydict :=
  exists_ <- collection_exists name ;;
  if negb exists_ then raise (ValueError (msg_no_existe name)) else
  let metadata :=
    [ ("description", opt_str description);
      ("updated_at", PStr now) ] in
  client_update_collection name metadata ;;;
  ret (success name ("Colección '" ++ name ++ "' actualizada correctamente")).

(** [x > 0] on an optional integer: comparing [None] with an [int] raises. *)
Definition gt_zero (x : option Z) : M bool :=
  match x with
  | Some n => ret (0 <? n)
  | None =>
      raise (TypeError
               "'>' not supported between instances of 'NoneType' and 'int'")
  end.

Definition delete_collection (name : string) (force : bool) : M pydict :=
  exists_ <- collection_exists name ;;
  if negb exists_ then raise (ValueError (msg_no_existe name)) else
  info <- client_get_collection name ;;
  has_points <- gt_zero (points_count info) ;;
  if has_points && negb force
  then raise (ValueError (msg_tiene_vectores name)) else
  client_delete_collection name ;;;
  ret (success name ("Colección '" ++ name ++ "' eliminada correctamente")).

Definition clear_collection (name : string) : M pydict :=
  exists_ <- collection_exists name ;;
  if negb exists_ then raise (ValueError (msg_no_existe name)) else
  info <- client_get_collection name ;;
  let metadata := metadata (config info) in
  client_delete_collection name ;;;
  client_create_collection name (vectors (params (config info))) metadata ;;;
  ret (success name ("Colección '" ++ name ++ "' limpiada correctamente")).

(** The filter expression of [delete_document_by_filename]. Its three
    constructors are global names, looked up each time it is evaluated. *)
Definition filename_filter (filename : string) : M Filter :=
  load_global "Filter" ;;;
  load_global "FieldCondition" ;;;
  load_global "MatchValue" ;;;
  ret {| must := [ {| key := "filename"; match_value := filename |} ] |}.

Definition delete_document_by_filename (collection_name filename : string)
  : M pydict :=
  exists_ <- collection_exists collection_name ;;
  if negb exists_ then raise (ValueError (msg_no_existe collection_name)) else
  scroll_filter <- filename_filter filename ;;
  scroll_result <-
    client_scroll collection_name (Some scroll_filter) 10000 None false ;;
  let points_to_delete := fst scroll_result in
  let total_points := List.length points_to_delete in
  if Nat.eqb total_points 0
  then raise (ValueError (msg_sin_puntos filename collection_name)) else
  points_selector <- filename_filter filename ;;
  client_delete collection_name points_selector ;;;
  ret [ ("success", PBool true);
        ("collection_name", PStr collection_name);
        ("filename", PStr filename);
        ("deleted_points", PInt (Z.of_nat total_points));
        ("message", PStr ("Eliminados " ++ str_of_nat total_points
                            ++ " chunks del documento '" ++ filename ++ "'")) ].

(** The [while True] loop that scrolls through a collection. *)
Fixpoint scroll_all (fuel : nat) (collection_name : string)
         (all_points : list Point) (offset : option nat) : M (list Point) :=
  match fuel with
  | O => out_of_fuel
  | S fuel' =>
      scroll_result <- client_scroll collection_name None 100 offset true ;;
      let all_points := (all_points ++ fst scroll_result)%list in
      match snd scroll_result with
      | None => ret all_points
      | Some next_offset =>
          scroll_all fuel' collection_name all_points (Some next_offset)
      end
  end.

Definition list_documents_in_collection (fuel : nat) (collection_name : string)
  : M DocumentListing :=
  exists_ <- collection_exists collection_name ;;
  if negb exists_ then raise (ValueError (msg_no_existe collection_name)) else
  all_points <- scroll_all fuel collection_name [] None ;;
  documents <- lift (group_points all_points []) ;;
  ret (Build_DocumentListing
         collection_name
         (Z.of_nat (List.length documents))
         (Z.of_nat (List.length all_points))
         (map snd documents)).

(** *** Attribute lookup on the manager *)

(** The attributes that the body of [class QdrantCollectionManager]
    defines. *)
Inductive attribute : Type :=
| A_instance
| A_client
| A_new
| A_init
| A_create_collection
| A_list_collections
| A_get_collection_info
| A_update_collection
| A_delete_collection
| A_clear_collection
| A_collection_exists
| A_delete_document_by_filename
| A_list_documents_in_collection.

Definition QdrantCollectionManager_dict : list (string * attribute) :=
  [ ("_instance", A_instance);
    ("_client", A_client);
    ("__new__", A_new);
    ("__init__", A_init);
    ("create_collection", A_create_collection);
    ("list_collections", A_list_collections);
    ("get_collection_info", A_get_collection_info);
    ("update_collection", A_update_collection);
    ("delete_collection", A_delete_collection);
    ("clear_collection", A_clear_collection);
    ("collection_exists", A_collection_exists);
    ("delete_document_by_filename", A_delete_document_by_filename);
    ("list_documents_in_collection", A_list_documents_in_collection) ].

(** [manager.<attr>]: [AttributeError] when the class defines no such
    attribute. *)
Definition getattr_manager (attr : string) : M attribute :=
  match dict_lookup attr QdrantCollectionManager_dict with
  | Some a => ret a
  | None => raise (AttributeError "QdrantCollectionManager" attr)
  end.

(** [{**a(collection_name)}]: the attribute called with a collection name
    as its only argument, and its result unpacked as a mapping. *)
Definition call_as_mapping (fuel : nat) (a : attribute) (collection_name : string)
  : M pydict :=
  match a with
  | A_delete_collection => delete_collection collection_name false
  | A_clear_collection => clear_collection collection_name
  | A_list_documents_in_collection =>
      r <- list_documents_in_collection fuel collection_name ;;
      ret (DocumentListing_dict r)
  | A_get_collection_info =>
      get_collection_info collection_name ;;;
      raise (TypeError "'CollectionStats' object is not a mapping")
  | A_collection_exists =>
      collection_exists collection_name ;;;
      raise (TypeError "'bool' object is not a mapping")
  | A_new => raise (AttributeError "str" "_instance")
  | A_instance => raise (TypeError "'QdrantCollectionManager' object is not callable")
  | A_client => raise (TypeError "'QdrantClient' object is not callable")
  | A_init | A_list_collections =>
      raise (TypeError "takes 1 positional argument but 2 were given")
  | A_create_collection | A_update_collection | A_delete_document_by_filename =>
      raise (TypeError "missing required positional arguments")
  end.

End Manager.

(** ** The REST handlers of [collections_api.py] *)

Inductive http_result (A : Type) : Type :=
| Response (status_code : Z) (body : A)
| HTTPException (status_code : Z) (detail : string)
| NoResponse.
Arguments Response {A} status_code body.
Arguments HTTPException {A} status_code detail.
Arguments NoResponse {A}.

Definition Handler (A : Type) : Type := Store -> http_result A * Store.

(** The shape shared by the handlers:
    [try: return m  except ValueError as e: raise HTTPException(c, str(e))
     except Exception as e: raise HTTPException(500, str(e))]. *)
Definition endpoint {A} (success_code value_error_code : Z) (m : M A) : Handler A :=
  fun st =>
    match m st with
    | (Ok a, st') => (Response success_code a, st')
    | (Raise e, st') =>
        (HTTPException (if is_ValueError e then value_error_code else 500)
                       (exn_str e), st')
    | (NoFuel, st') => (NoResponse, st')
    end.

Module API.

Definition create_collection (index_fails : string -> string -> bool)
           (now : string) (create_refused : string -> VectorParams -> option exn)
           (request : CollectionCreateRequest) : Handler pydict :=
  endpoint 201 400
    (create_collection index_fails now create_refused (req_name request)
       (req_description request) (req_vector_size request)
       (req_distance request)).

Definition list_collections : Handler (list CollectionStats.t) :=
  endpoint 200 500 list_collections.

Definition get_collection (collection_name : string) : Handler CollectionStats.t :=
  endpoint 200 404 (get_collection_info collection_name).

Definition update_collection
           (merge_metadata : option pydict -> pydict -> option pydict)
           (now : string) (collection_name : string)
           (request : CollectionUpdateRequest) : Handler pydict :=
  endpoint 200 404
    (update_collection merge_metadata now collection_name
       (upd_description request)).

Definition delete_collection (collection_name : string) (force : bool)
  : Handler pydict :=
  endpoint 200 400 (delete_collection collection_name force).

Definition clear_collection (create_refused : string -> VectorParams -> option exn)
           (collection_name : string) : Handler pydict :=
  endpoint 200 404 (clear_collection create_refused collection_name).

Definition get_collection_stats
           (create_refused : string -> VectorParams -> option exn)
           (fuel : nat) (collection_name : string) : Handler pydict :=
  endpoint 200 404
    (info <- get_collection_info collection_name ;;
     get_collection_documents_count <-
       getattr_manager "get_collection_documents_count" ;;
     counts <- call_as_mapping create_refused fuel
                 get_collection_documents_count collection_name ;;
     ret (dict_merge (CollectionStats.dict info) counts)).

Definition check_collection_exists (collection_name : string) : Handler pydict :=
  endpoint 200 500
    (exists_ <- collection_exists collection_name ;;
     ret [ ("collection_name", PStr collection_name);
           ("exists", PBool exists_) ]).

Definition list_documents (fuel : nat) (collection_name : string)
  : Handler DocumentListing :=
  endpoint 200 404 (list_documents_in_collection fuel collection_name).

Definition delete_document (collection_name filename : string) : Handler pydict :=
  endpoint 200 404 (delete_document_by_filename collection_name filename).

End API.

(** ** Vocabulary of the statements *)

(** The store after the calls [cs] were issued and changed no collection. *)
Definition logged (st : Store) (cs : list Call) : Store :=
  {| collections := collections st; trace := trace st ++ cs |}.

(** The store with collections [cs] after the calls [l] were issued. *)
Definition stored (st : Store) (cs : list Collection) (l : list Call) : Store :=
  {| collections := cs; trace := trace st ++ l |}.

(** The payload fields the specification names as the known schema. *)
Definition spec_known_schema : list string :=
  [ "filename"; "document_hash"; "format"; "total_pages"; "total_chunks";
    "date"; "chunk" ].

(** The index calls of a creation, one per entry of a table. *)
Definition index_calls (name : string) (table : list (string * PayloadSchemaType))
  : list Call :=
  map (fun fs => CreatePayloadIndex name (fst fs) (snd fs)) table.

(** The indexes that the store accepted. *)
Definition accepted (index_fails : string -> string -> bool) (name : string)
           (table : list (string * PayloadSchemaType))
  : list (string * PayloadSchemaType) :=
  filter (fun fs => negb (index_fails name (fst fs))) table.

Definition with_schema (s : list (string * PayloadSchemaType)) (c : Collection)
  : Collection :=
  {| col_name := col_name c;
     col_vectors := col_vectors c;
     col_metadata := col_metadata c;
     col_status := col_status c;
     col_points_count := col_points_count c;
     col_indexed_vectors_count := col_indexed_vectors_count c;
     col_points := col_points c;
     col_payload_schema := s |}.

(** A point belongs to the document of key [k]. *)
Definition has_key (k : hkey) (p : Point) : bool :=
  match hash_key (filename_of p) with
  | Ok k' => hkey_eqb k k'
  | _ => false
  end.

(** The number of points of the document of key [k]. *)
Definition count_key (k : hkey) (pts : list Point) : nat :=
  List.length (filter (has_key k) pts).

(** The filename of a point can be a dict key. *)
Definition hashable (p : Point) : bool :=
  match hash_key (filename_of p) with
  | Ok _ => true
  | _ => false
  end.

(** The document-level attributes of [d] are those of the payload of [p]. *)
Definition attributes_from (p : Point) (d : Document) : Prop :=
  filename d = filename_of p /\
  document_hash d = dict_get (or_empty (payload p)) "document_hash" /\
  format d = dict_get (or_empty (payload p)) "format" /\
  total_pages d = dict_get (or_empty (payload p)) "total_pages" /\
  total_chunks d = dict_get (or_empty (payload p)) "total_chunks" /\
  date d = dict_get (or_empty (payload p)) "date".

(** [p] is the first point of [pts] whose filename has key [k]. *)
Definition first_with_key (k : hkey) (p : Point) (pts : list Point) : Prop :=
  exists before after,
    pts = (before ++ p :: after)%list /\
    has_key k p = true /\
    forall q, In q before -> has_key k q = false.

(** The [documents] dict [docs] is the grouping of the points [pts]: its keys
    are pairwise distinct, every point has its key among them, and every
    entry counts the points of its key and carries the attributes of the
    first of them. *)
Definition grouped (pts : list Point) (docs : documents_dict) : Prop :=
  NoDup (map fst docs) /\
  (forall p, In p pts ->
             exists k, hash_key (filename_of p) = Ok k /\ In k (map fst docs)) /\
  (forall k d, In (k, d) docs ->
               chunks_count d = Z.of_nat (count_key k pts) /\
               exists p, first_with_key k p pts /\ attributes_from p d).

(** ** Sample data *)

Definition chunk_of (i : Z) (file : string) : Point :=
  {| id := i;
     payload := Some [ ("filename", PStr file);
                       ("document_hash", PStr "f282bcdb04b3");
                       ("format", PStr "pdf");
                       ("total_pages", PInt 26);
                       ("total_chunks", PInt 58);
                       ("date", PStr "2026-01-20T13:43:34.101354");
                       ("chunk", PInt i) ] |}.

(** A collection with two documents, of three and of two chunks. *)
Definition sample_collection : Collection :=
  {| col_name := "Curso_101";
     col_vectors := {| size := 768; distance := COSINE |};
     col_metadata := Some [ ("description", PStr "Cursos");
                            ("created_at", PStr "2026-01-20T13:00:00") ];
     col_status := GREEN;
     col_points_count := Some 5;
     col_indexed_vectors_count := Some 0;
     col_points := [ chunk_of 1 "a.pdf"; chunk_of 2 "a.pdf"; chunk_of 3 "b.pdf";
                     chunk_of 4 "a.pdf"; chunk_of 5 "b.pdf" ];
     col_payload_schema := [] |}.

Definition sample_store : Store :=
  {| collections := [sample_collection]; trace := [] |}.

(** The same collection when the store reports no point count. *)
Definition uncounted_collection : Collection :=
  {| col_name := "Curso_101";
     col_vectors := {| size := 768; distance := COSINE |};
     col_metadata := None;
     col_status := GREEN;
     col_points_count := None;
     col_indexed_vectors_count := None;
     col_points := [ chunk_of 1 "a.pdf" ];
     col_payload_schema := [] |}.

Definition uncounted_store : Store :=
  {| collections := [uncounted_collection]; trace := [] |}.

Definition empty_store : Store := {| collections := []; trace := [] |}.

(** A store that refuses an empty name and a vector size outside
    1..65536. *)
Definition sample_refusal (name : string) (v : VectorParams) : option exn :=
  if String.eqb name "" || (size v <? 1) || (65536 <? size v)
  then Some (StoreError "Unexpected Response: 422 (Unprocessable Entity)")
  else None.

(** A collection whose description is a number. *)
Definition numbered_collection : Collection :=
  {| col_name := "Curso_105";
     col_vectors := {| size := 768; distance := COSINE |};
     col_metadata := Some [ ("description", PInt 5) ];
     col_status := GREEN;
     col_points_count := Some 0;
     col_indexed_vectors_count := Some 0;
     col_points := [];
     col_payload_schema := [] |}.

Definition numbered_store : Store :=
  {| collections := [numbered_collection]; trace := [] |}.

(** A point whose filename is a list, as a keyword field of the store may
    be. *)
Definition list_named_point : Point :=
  {| id := 6;
     payload := Some [ ("filename", PList [PStr "a.pdf"; PStr "b.pdf"]);
                       ("format", PStr "pdf") ] |}.

Definition list_named_store : Store :=
  {| collections :=
       [ {| col_name := "Curso_103";
            col_vectors := {| size := 768; distance := COSINE |};
            col_metadata := None;
            col_status := GREEN;
            col_points_count := Some 2;
            col_indexed_vectors_count := Some 0;
            col_points := [ chunk_of 1 "a.pdf"; list_named_point ];
            col_payload_schema := [] |} ];
     trace := [] |}.

(** ** The process-wide manager *)

(** [QDRANT_HOST] and [QDRANT_PORT], read from the environment at import. *)
Record Config : Type := { QDRANT_HOST : string; QDRANT_PORT : Z }.

(** An integer inside an f-string. *)
Definition str_of_Z (z : Z) : string :=
  if z <? 0 then "-" ++ str_of_nat (Z.to_nat (- z)) else str_of_nat (Z.to_nat z).

(** The arguments of a [QdrantClient(url=..., timeout=...)] construction. *)
Record ClientParams : Type := { url : string; timeout : Z }.

(** The Python objects behind the singleton: the class attribute
    [_instance], the instance attribute [_client] of every manager object
    allocated so far (an object is its position in [instance_client]; [None]
    is an attribute left unset, which reads as the class attribute [None]),
    the clients constructed so far (a client is its position in [clients]),
    the module global [_collection_manager], and what was printed. *)
Record Runtime : Type :=
  { _instance : option nat;
    instance_client : list (option nat);
    clients : list ClientParams;
    _collection_manager : option nat;
    stdout : list string }.

Definition fresh_runtime : Runtime :=
  {| _instance := None;
     instance_client := [];
     clients := [];
     _collection_manager := None;
     stdout := [] |}.

(** [QdrantCollectionManager.__new__(cls)]. *)
Definition manager_new (rt : Runtime) : nat * Runtime :=
  match _instance rt with
  | None =>
      let self := List.length (instance_client rt) in
      (self,
       {| _instance := Some self;
          instance_client := instance_client rt ++ [None];
          clients := clients rt;
          _collection_manager := _collection_manager rt;
          stdout := stdout rt |})
  | Some self => (self, rt)
  end.

(** [self._client = v] on the object [self]. *)
Fixpoint set_client (self : nat) (v : nat) (objs : list (option nat))
  : list (option nat) :=
  match objs, self with
  | [], _ => []
  | _ :: objs', O => Some v :: objs'
  | o :: objs', S self' => o :: set_client self' v objs'
  end.

(** [QdrantCollectionManager.__init__(self)]. [client_error] tells whether
    the construction [QdrantClient(url=..., timeout=60)] raises for the
    arguments it is given; when it does, the first line is printed already
    and [self._client] stays unset. *)
Definition manager_init (client_error : ClientParams -> option exn)
           (cfg : Config) (self : nat) (rt : Runtime) : option exn * Runtime :=
  match nth self (instance_client rt) None with
  | None =>
      let address := QDRANT_HOST cfg ++ ":" ++ str_of_Z (QDRANT_PORT cfg) in
      let arguments := {| url := "http://" ++ address; timeout := 60 |} in
      let out1 :=
        (stdout rt ++ [ ("🔗 Conectando a Qdrant: " ++ address)%string ])%list in
      match client_error arguments with
      | Some e =>
          (Some e,
           {| _instance := _instance rt;
              instance_client := instance_client rt;
              clients := clients rt;
              _collection_manager := _collection_manager rt;
              stdout := out1 |})
      | None =>
          (None,
           {| _instance := _instance rt;
              instance_client :=
                set_client self (List.length (clients rt)) (instance_client rt);
              clients := clients rt ++ [arguments];
              _collection_manager := _collection_manager rt;
              stdout := (out1 ++ [ "✅ Cliente Qdrant inicializado" ])%list |})
      end
  | Some _ => (None, rt)
  end.

(** The call [QdrantCollectionManager()]: [__new__], then [__init__] on the
    object it returned; an exception of [__init__] is the outcome of the
    call. *)
Definition QdrantCollectionManager (client_error : ClientParams -> option exn)
           (cfg : Config) (rt : Runtime) : result nat * Runtime :=
  let (self, rt1) := manager_new rt in
  match manager_init client_error cfg self rt1 with
  | (None, rt2) => (Ok self, rt2)
  | (Some e, rt2) => (Raise e, rt2)
  end.

Definition get_collection_manager (client_error : ClientParams -> option exn)
           (cfg : Config) (rt : Runtime) : result nat * Runtime :=
  match _collection_manager rt with
  | None =>
      match QdrantCollectionManager client_error cfg rt with
      | (Ok m, rt1) =>
          (Ok m,
           {| _instance := _instance rt1;
              instance_client := instance_client rt1;
              clients := clients rt1;
              _collection_manager := Some m;
              stdout := stdout rt1 |})
      | (r, rt1) => (r, rt1)
      end
  | Some m => (Ok m, rt)
  end.

(** The two ways a caller obtains a manager. *)
Inductive manager_request : Type := Construct | GetManager.

Definition serve_request (client_error : ClientParams -> option exn)
           (cfg : Config) (r : manager_request) (rt : Runtime)
  : result nat * Runtime :=
  match r with
  | Construct => QdrantCollectionManager client_error cfg rt
  | GetManager => get_collection_manager client_error cfg rt
  end.

(** A sequence of requests, with the outcome of each one. *)
Fixpoint serve_requests (client_error : ClientParams -> option exn)
         (cfg : Config) (rs : list manager_request) (rt : Runtime)
  : list (result nat) * Runtime :=
  match rs with
  | [] => ([], rt)
  | r :: rs' =>
      let (m, rt1) := serve_request client_error cfg r rt in
      let (ms, rt2) := serve_requests client_error cfg rs' rt1 in
      (m :: ms, rt2)
  end.

(** The arguments of the one client of a configuration, and the two lines
    that a connection prints. *)
Definition client_arguments (cfg : Config) : ClientParams :=
  {| url := "http://" ++ QDRANT_HOST cfg ++ ":" ++ str_of_Z (QDRANT_PORT cfg);
     timeout := 60 |}.

Definition connecting_line (cfg : Config) : string :=
  "🔗 Conectando a Qdrant: " ++ QDRANT_HOST cfg ++ ":" ++ str_of_Z (QDRANT_PORT cfg).

Definition connected_line : string := "✅ Cliente Qdrant inicializado".

(** The state once a manager exists: one object, whose client is the one
    client ever constructed, and the two lines printed once. *)
Definition settled (cfg : Config) (rt : Runtime) : Prop :=
  _instance rt = Some O
  /\ instance_client rt = [Some O]
  /\ clients rt = [client_arguments cfg]
  /\ (_collection_manager rt = None \/ _collection_manager rt = Some O)
  /\ stdout rt = [connecting_line cfg; connected_line].

(** The state after [n] requests whose connection was refused: one object
    without a client, no manager kept, the first line printed each time. *)
Definition unconnected (cfg : Config) (n : nat) (rt : Runtime) : Prop :=
  _instance rt = Some O
  /\ instance_client rt = [None]
  /\ clients rt = []
  /\ _collection_manager rt = None
  /\ stdout rt = repeat (connecting_line cfg) n.

(** ** Vocabulary of the further properties *)

(** A store that replaces the metadata of a collection by what an update
    sends, and a store that merges it key by key into what it holds. *)
Definition replace_metadata (old : option pydict) (new : pydict) : option pydict :=
  Some new.

Definition merge_by_key (old : option pydict) (new : pydict) : option pydict :=
  Some (dict_merge (or_empty old) new).

(** The metadata of a collection passes the validation of
    [CollectionStats]: its description and its creation time are strings or
    null (or absent). *)
Definition metadata_validates (m : option pydict) : bool :=
  is_optional_str (dict_get (or_empty m) "description")
  && is_optional_str (dict_get (or_empty m) "created_at").

(** A computation that leaves every collection of the store as it was,
    whatever it returns or raises. *)
Definition read_only {A} (m : M A) : Prop :=
  forall st : Store, collections (snd (m st)) = collections st.

(** A call that asks for a payload index. *)
Definition is_index_call (c : Call) : bool :=
  match c with
  | CreatePayloadIndex _ _ _ => true
  | _ => false
  end.

(** The sum of the [chunks_count] of a list of documents. *)
Definition sum_chunks (ds : list Document) : Z :=
  fold_right (fun d acc => chunks_count d + acc) 0 ds.

(** The keys of the filenames of a list of points, in scan order. *)
Definition point_keys (pts : list Point) : list hkey :=
  flat_map (fun p => match hash_key (filename_of p) with
                     | Ok k => [k]
                     | _ => []
                     end) pts.

(** The keys of [ks] that are not in [seen], each at its first occurrence. *)
Fixpoint first_occurrences (seen ks : list hkey) : list hkey :=
  match ks with
  | [] => []
  | k :: ks' =>
      if existsb (hkey_eqb k) seen
      then first_occurrences seen ks'
      else k :: first_occurrences (k :: seen) ks'
  end.

(** A collection indexed on two fields, and a second collection beside it. *)
Definition indexed_collection : Collection :=
  {| col_name := "Curso_104";
     col_vectors := {| size := 3; distance := DOT |};
     col_metadata := Some [ ("description", PNone);
                            ("created_at", PStr "2026-01-19T09:00:00") ];
     col_status := GREEN;
     col_points_count := Some 0;
     col_indexed_vectors_count := Some 0;
     col_points := [];
     col_payload_schema := [ ("filename", KEYWORD); ("chunk", INTEGER) ] |}.

Definition two_collections : Store :=
  {| collections := [sample_collection; indexed_collection]; trace := [] |}.

Definition local_config : Config :=
  {| QDRANT_HOST := "localhost"; QDRANT_PORT := 6333 |}.

(** * Verification *)

(** ** Running the client and the existence check *)

Lemma exists_find (name : string) (cs : list Collection) :
  existsb (String.eqb name) (map col_name cs) =
  match find_collection name cs with
  | Some _ => true
  | None => false
  end.
Proof.
  induction cs as [|c cs IH]; simpl; [reflexivity|].
  destruct (String.eqb name (col_name c)); simpl; [reflexivity|exact IH].
Qed.

Lemma logged_logged (st : Store) (a b : list Call) :
  logged (logged st a) b = logged st (a ++ b).
Proof. unfold logged; simpl. now rewrite <- app_assoc. Qed.

Lemma stored_logged (st : Store) (a b : list Call) (cs : list Collection) :
  stored (logged st a) cs b = stored st cs (a ++ b).
Proof. unfold stored, logged; simpl. now rewrite <- app_assoc. Qed.

Lemma collection_exists_run (name : string) (st : Store) :
  collection_exists name st =
  (Ok (match find_collection name (collections st) with
       | Some _ => true
       | None => false
       end), logged st [GetCollections]).
Proof.
  unfold collection_exists, client_get_collections, bind, log, get_cols, ret.
  simpl. now rewrite exists_find.
Qed.

Lemma client_get_collection_run (name : string) (st : Store) (c : Collection) :
  find_collection name (collections st) = Some c ->
  client_get_collection name st = (Ok (info_of c), logged st [GetCollection name]).
Proof.
  intros H. unfold client_get_collection, bind, log, get_cols. simpl.
  now rewrite H.
Qed.

Lemma bind_ok {A B} (m : M A) (k : A -> M B) (st st' : Store) (a : A) :
  m st = (Ok a, st') -> bind m k st = k a st'.
Proof. intros H. unfold bind. now rewrite H. Qed.

Lemma bind_raise {A B} (m : M A) (k : A -> M B) (st st' : Store) (e : exn) :
  m st = (Raise e, st') -> bind m k st = (Raise e, st').
Proof. intros H. unfold bind. now rewrite H. Qed.

(** ** Creation *)

Lemma find_app_last (name : string) (cs : list Collection) (c : Collection) :
  find_collection name cs = None -> col_name c = name ->
  find_collection name (cs ++ [c]) = Some c.
Proof.
  intros Hn Hc. induction cs as [|c' cs IH]; simpl in *.
  - rewrite Hc, String.eqb_refl. reflexivity.
  - destruct (String.eqb name (col_name c')); [discriminate|auto].
Qed.

Lemma modify_app_last (name : string) (f : Collection -> Collection)
      (cs : list Collection) (c : Collection) :
  find_collection name cs = None -> col_name c = name ->
  modify_collection name f (cs ++ [c]) = (cs ++ [f c])%list.
Proof.
  intros Hn Hc. induction cs as [|c' cs IH]; simpl in *.
  - rewrite Hc, String.eqb_refl. reflexivity.
  - destruct (String.eqb name (col_name c')); [discriminate|].
    now rewrite IH.
Qed.

Lemma index_loop_run (index_fails : string -> string -> bool) (name : string)
      (cs : list Collection) (table : list (string * PayloadSchemaType)) :
  find_collection name cs = None ->
  forall (c : Collection) (tr : list Call),
    col_name c = name ->
    for_each table
      (fun fs =>
         try_except
           (client_create_payload_index index_fails name (fst fs) (snd fs))
           (fun e => ret tt))
      {| collections := cs ++ [c]; trace := tr |}
    = (Ok tt,
       {| collections :=
            cs ++ [with_schema
                     (col_payload_schema c ++ accepted index_fails name table) c];
          trace := tr ++ index_calls name table |}).
Proof.
  intros Hn. induction table as [|[f s] table IH]; intros c tr Hc; simpl.
  - unfold ret. rewrite !app_nil_r. destruct c; reflexivity.
  - unfold bind at 1, try_except, client_create_payload_index.
    unfold bind at 1, log at 1; simpl.
    unfold bind at 1, get_cols at 1; simpl.
    rewrite (find_app_last name cs c Hn Hc).
    destruct (index_fails name f) eqn:F; simpl.
    + unfold raise, ret. rewrite IH by exact Hc.
      now rewrite <- app_assoc.
    + unfold put_cols; simpl.
      rewrite (modify_app_last name _ cs c Hn Hc).
      rewrite IH by (destruct c; exact Hc).
      unfold with_schema, with_index; simpl.
      rewrite <- !app_assoc. reflexivity.
Qed.

Lemma client_create_collection_run
      (create_refused : string -> VectorParams -> option exn)
      (name : string) (v : VectorParams) (m : option pydict) (st : Store) :
  create_refused name v = None ->
  find_collection name (collections st) = None ->
  client_create_collection create_refused name v m st
  = (Ok true,
     {| collections := collections st ++ [fresh_collection name v m];
        trace := trace st ++ [CreateCollection name v m] |}).
Proof.
  intros Ha H. unfold client_create_collection, bind, log, get_cols; simpl.
  rewrite Ha. simpl. now rewrite H.
Qed.

Lemma client_create_collection_refused
      (create_refused : string -> VectorParams -> option exn)
      (name : string) (v : VectorParams) (m : option pydict) (st : Store)
      (e : exn) :
  create_refused name v = Some e ->
  client_create_collection create_refused name v m st
  = (Raise e, logged st [CreateCollection name v m]).
Proof.
  intros Hr. unfold client_create_collection, bind, log; simpl.
  now rewrite Hr.
Qed.

(** What a creation under a free name does when the store refuses it. *)
Lemma create_collection_refused
      (index_fails : string -> string -> bool) (now : string)
      (create_refused : string -> VectorParams -> option exn) (st : Store)
      (name : string) (description : option string) (vector_size : Z)
      (distance : string) (e : exn) :
  find_collection name (collections st) = None ->
  let vp := {| size := vector_size; distance := distance_metric distance |} in
  let md := Some [ ("description", opt_str description);
                   ("created_at", PStr now) ] in
  create_refused name vp = Some e ->
  create_collection index_fails now create_refused name description
    vector_size distance st
  = (Raise e, logged st [GetCollections; CreateCollection name vp md]).
Proof.
  intros H vp md Hr. unfold create_collection.
  rewrite (bind_ok _ _ _ _ _ (collection_exists_run name st)).
  rewrite H. cbv iota.
  rewrite (bind_raise _ _ _ _ _
             (client_create_collection_refused create_refused name vp md
                (logged st [GetCollections]) e Hr)).
  now rewrite logged_logged.
Qed.

(** What a creation under a free name does, call by call, when the store
    accepts it. *)
Lemma create_collection_run
      (index_fails : string -> string -> bool) (now : string)
      (create_refused : string -> VectorParams -> option exn) (st : Store)
      (name : string) (description : option string) (vector_size : Z)
      (distance : string) :
  find_collection name (collections st) = None ->
  let vp := {| size := vector_size; distance := distance_metric distance |} in
  let md := Some [ ("description", opt_str description);
                   ("created_at", PStr now) ] in
  create_refused name vp = None ->
  create_collection index_fails now create_refused name description
    vector_size distance st
  = (Ok (success name ("Colección '" ++ name ++ "' creada correctamente")),
     stored st
       (collections st
          ++ [with_schema (accepted index_fails name DEFAULT_PAYLOAD_INDEXES)
                (fresh_collection name vp md)])
       ([GetCollections; CreateCollection name vp md]
          ++ index_calls name DEFAULT_PAYLOAD_INDEXES)).
Proof.
  intros H vp md Ha. unfold create_collection.
  rewrite (bind_ok _ _ _ _ _ (collection_exists_run name st)).
  rewrite H. cbv iota.
  rewrite (bind_ok _ _ _ _ _
             (client_create_collection_run create_refused name vp md
                (logged st [GetCollections]) Ha H)).
  rewrite (bind_ok _ _ _ _ _
             (index_loop_run index_fails name (collections st)
                DEFAULT_PAYLOAD_INDEXES H (fresh_collection name vp md)
                _ eq_refl)).
  unfold ret, stored, logged.
  replace (col_payload_schema (fresh_collection name vp md)) with
    (@nil (string * PayloadSchemaType)) by reflexivity.
  cbn [app trace collections]. rewrite <- !app_assoc. reflexivity.
Qed.


(** C7. Creating a collection under a name that is already taken raises the
    duplicate-name [ValueError] whatever the other parameters are; the only
    call issued on the store is the listing of the existence check, so no
    collection is created and no index is requested, and the handler answers
    400. *)
Theorem create_existing_name_rejected
        (index_fails : string -> string -> bool) (now : string)
        (create_refused : string -> VectorParams -> option exn) (st : Store)
        (name : string) (description : option string) (vector_size : Z)
        (distance : string) (c : Collection) :
  find_collection name (collections st) = Some c ->
  create_collection index_fails now create_refused name description
    vector_size distance st
  = (Raise (ValueError (msg_ya_existe name)), logged st [GetCollections])
  /\ API.create_collection index_fails now create_refused
       {| req_name := name; req_description := description;
          req_vector_size := vector_size; req_distance := distance |} st
     = (HTTPException 400 (msg_ya_existe name), logged st [GetCollections]).
Proof.
  intros H.
  assert (E : create_collection index_fails now create_refused name
                description vector_size distance st
              = (Raise (ValueError (msg_ya_existe name)),
                 logged st [GetCollections])).
  { unfold create_collection.
    rewrite (bind_ok _ _ _ _ _ (collection_exists_run name st)).
    now rewrite H. }
  split; [exact E|].
  unfold API.create_collection, endpoint; simpl. now rewrite E.
Qed.

Lemma create_existing_name_rejected_witness :
  find_collection "Curso_101" (collections sample_store) = Some sample_collection /\
  create_collection (fun _ _ => false) "2026-01-21T08:00:00" sample_refusal
    "Curso_101" (Some "otra") 3 "Dot" sample_store
  = (Raise (ValueError "La colección 'Curso_101' ya existe"),
     logged sample_store [GetCollections]).
Proof.
  split; [reflexivity|].
  exact (proj1 (create_existing_name_rejected (fun _ _ => false)
                  "2026-01-21T08:00:00" sample_refusal sample_store
                  "Curso_101" (Some "otra") 3 "Dot" sample_collection eq_refl)).
Defined.

(** C8. In a creation the distance string is looked up in the three-entry
    map, every other string falls back to [COSINE], and the metric found is
    the one of the vector parameters sent to the store. *)
Theorem distance_metric_mapping :
  distance_metric "Cosine" = COSINE /\
  distance_metric "Euclid" = EUCLID /\
  distance_metric "Dot" = DOT /\
  (forall s : string,
      s <> "Cosine" -> s <> "Euclid" -> s <> "Dot" -> distance_metric s = COSINE) /\
  (forall (index_fails : string -> string -> bool) (now : string)
          (create_refused : string -> VectorParams -> option exn) (st : Store)
          (name : string) (description : option string) (vector_size : Z)
          (distance : string),
      find_collection name (collections st) = None ->
      exists (metadata : option pydict) (indexes : list Call),
        trace (snd (create_collection index_fails now create_refused name
                      description vector_size distance st))
        = (trace st
             ++ GetCollections
             :: CreateCollection name
                  {| size := vector_size; distance := distance_metric distance |}
                  metadata
             :: indexes)%list).
Proof.
  split; [reflexivity|]. split; [reflexivity|]. split; [reflexivity|]. split.
  - intros s Hc He Hd.
    unfold distance_metric, distance_map; simpl.
    apply String.eqb_neq in Hc, He, Hd.
    now rewrite Hc, He, Hd.
  - intros index_fails now create_refused st name description vector_size
      distance H.
    destruct (create_refused name
                {| size := vector_size; distance := distance_metric distance |})
      as [e|] eqn:R.
    + rewrite (create_collection_refused index_fails now create_refused st
                 name description vector_size distance e H R).
      eexists; exists []. reflexivity.
    + rewrite (create_collection_run index_fails now create_refused st
                 name description vector_size distance H R).
      eexists; eexists. reflexivity.
Qed.

Lemma distance_metric_mapping_witness :
  "Manhattan" <> "Cosine" /\ "Manhattan" <> "Euclid" /\ "Manhattan" <> "Dot" /\
  distance_metric "Manhattan" = COSINE /\
  find_collection "Curso_102" (collections sample_store) = None /\
  exists (metadata : option pydict) (indexes : list Call),
    trace (snd (create_collection (fun _ _ => false) "2026-01-21T08:00:00"
                  sample_refusal "Curso_102" None 768 "Manhattan"
                  sample_store))
    = (trace sample_store
         ++ GetCollections
         :: CreateCollection "Curso_102"
              {| size := 768; distance := distance_metric "Manhattan" |}
              metadata
         :: indexes)%list.
Proof.
  assert (Hc : "Manhattan" <> "Cosine") by discriminate.
  assert (He : "Manhattan" <> "Euclid") by discriminate.
  assert (Hd : "Manhattan" <> "Dot") by discriminate.
  destruct distance_metric_mapping as (_ & _ & _ & Hother & Hcall).
  refine (conj Hc (conj He (conj Hd (conj _ (conj eq_refl _))))).
  - exact (Hother "Manhattan" Hc He Hd).
  - exact (Hcall (fun _ _ => false) "2026-01-21T08:00:00" sample_refusal
             sample_store "Curso_102" None 768 "Manhattan" eq_refl).
Defined.

(** C3, as stated, fails: a creation on an empty store, with a store that
    accepts every index, issues no index call for [total_chunks], one of the
    seven fields of the known schema. *)
Lemma create_skips_total_chunks_index :
  ~ (forall field : string,
        In field spec_known_schema ->
        exists schema : PayloadSchemaType,
          In (CreatePayloadIndex "Curso_101" field schema)
             (trace (snd (create_collection (fun _ _ => false)
                            "2026-01-20T13:43:34" sample_refusal
                            "Curso_101" None 768 "Cosine" empty_store)))).
Proof.
  intros H.
  destruct (H "total_chunks") as [schema Hs].
  - unfold spec_known_schema. simpl. tauto.
  - vm_compute in Hs.
    repeat (destruct Hs as [Hs|Hs]; [discriminate Hs|]).
    exact Hs.
Qed.

(** C3, amended. A creation under a free name that the store accepts
    issues, after the create-collection call, one index call for each entry
    of [DEFAULT_PAYLOAD_INDEXES] and no other: [document_hash], [filename],
    [format], [chunk], [total_pages] and [date], in this order, each of them
    attempted whether or not the store refused an earlier one. When the
    store refuses the creation, the exception of the create-collection call
    is the outcome and no index call is issued. *)
Theorem create_index_attempts
        (index_fails : string -> string -> bool) (now : string)
        (create_refused : string -> VectorParams -> option exn) (st : Store)
        (name : string) (description : option string) (vector_size : Z)
        (distance : string) :
  find_collection name (collections st) = None ->
  let vp := {| size := vector_size; distance := distance_metric distance |} in
  let md := Some [ ("description", opt_str description);
                   ("created_at", PStr now) ] in
  let out := create_collection index_fails now create_refused name
               description vector_size distance st in
  (create_refused name vp = None ->
   trace (snd out)
   = (trace st
        ++ [ GetCollections;
             CreateCollection name vp md;
             CreatePayloadIndex name "document_hash" KEYWORD;
             CreatePayloadIndex name "filename" KEYWORD;
             CreatePayloadIndex name "format" KEYWORD;
             CreatePayloadIndex name "chunk" INTEGER;
             CreatePayloadIndex name "total_pages" INTEGER;
             CreatePayloadIndex name "date" KEYWORD ])%list)
  /\
  (forall e : exn,
      create_refused name vp = Some e ->
      out = (Raise e, logged st [GetCollections; CreateCollection name vp md])).
Proof.
  intros H vp md out. split.
  - intros Ha. unfold out.
    now rewrite (create_collection_run index_fails now create_refused st name
                   description vector_size distance H Ha).
  - intros e Hr. unfold out.
    exact (create_collection_refused index_fails now create_refused st name
             description vector_size distance e H Hr).
Qed.

Lemma create_index_attempts_witness :
  find_collection "Curso_101" (collections empty_store) = None /\
  sample_refusal "Curso_101" {| size := 768; distance := DOT |} = None /\
  trace (snd (create_collection (fun _ field => String.eqb field "format")
                "2026-01-20T13:43:34" sample_refusal "Curso_101"
                (Some "Cursos") 768 "Dot" empty_store))
  = [ GetCollections;
      CreateCollection "Curso_101" {| size := 768; distance := DOT |}
        (Some [ ("description", PStr "Cursos");
                ("created_at", PStr "2026-01-20T13:43:34") ]);
      CreatePayloadIndex "Curso_101" "document_hash" KEYWORD;
      CreatePayloadIndex "Curso_101" "filename" KEYWORD;
      CreatePayloadIndex "Curso_101" "format" KEYWORD;
      CreatePayloadIndex "Curso_101" "chunk" INTEGER;
      CreatePayloadIndex "Curso_101" "total_pages" INTEGER;
      CreatePayloadIndex "Curso_101" "date" KEYWORD ] /\
  sample_refusal "Curso_101" {| size := 0; distance := DOT |}
  = Some (StoreError "Unexpected Response: 422 (Unprocessable Entity)") /\
  trace (snd (create_collection (fun _ field => String.eqb field "format")
                "2026-01-20T13:43:34" sample_refusal "Curso_101"
                (Some "Cursos") 0 "Dot" empty_store))
  = [ GetCollections;
      CreateCollection "Curso_101" {| size := 0; distance := DOT |}
        (Some [ ("description", PStr "Cursos");
                ("created_at", PStr "2026-01-20T13:43:34") ]) ].
Proof.
  refine (conj eq_refl (conj eq_refl (conj _ (conj eq_refl _)))).
  - exact (proj1 (create_index_attempts
                    (fun _ field => String.eqb field "format")
                    "2026-01-20T13:43:34" sample_refusal empty_store
                    "Curso_101" (Some "Cursos") 768 "Dot" eq_refl) eq_refl).
  - rewrite (proj2 (create_index_attempts
                      (fun _ field => String.eqb field "format")
                      "2026-01-20T13:43:34" sample_refusal empty_store
                      "Curso_101" (Some "Cursos") 0 "Dot" eq_refl) _ eq_refl).
    reflexivity.
Defined.

(** ** Update, deletion and clearing *)

Lemma client_update_collection_run
      (merge_metadata : option pydict -> pydict -> option pydict)
      (name : string) (md : pydict) (st : Store) (c : Collection) :
  find_collection name (collections st) = Some c ->
  client_update_collection merge_metadata name md st
  = (Ok true,
     stored st
       (modify_collection name
          (with_metadata (merge_metadata (col_metadata c) md)) (collections st))
       [UpdateCollection name md]).
Proof.
  intros H. unfold client_update_collection, bind, log, get_cols; simpl.
  now rewrite H.
Qed.

Lemma client_delete_collection_run (name : string) (st : Store) :
  client_delete_collection name st
  = (Ok (existsb (fun c => String.eqb name (col_name c)) (collections st)),
     stored st (remove_collection name (collections st)) [DeleteCollection name]).
Proof. reflexivity. Qed.

Lemma find_remove (name : string) (cs : list Collection) :
  find_collection name (remove_collection name cs) = None.
Proof.
  induction cs as [|c cs IH]; simpl; [reflexivity|].
  destruct (String.eqb name (col_name c)) eqn:E; simpl; [exact IH|].
  now rewrite E.
Qed.

Lemma missing_raises {A} (name : string) (st : Store) (k : M A) :
  find_collection name (collections st) = None ->
  (exists_ <- collection_exists name ;;
   if negb exists_ then raise (ValueError (msg_no_existe name)) else k) st
  = (Raise (ValueError (msg_no_existe name)), logged st [GetCollections]).
Proof.
  intros H. rewrite (bind_ok _ _ _ _ _ (collection_exists_run name st)).
  now rewrite H.
Qed.

Lemma present_continues {A} (name : string) (st : Store) (k : M A)
      (c : Collection) :
  find_collection name (collections st) = Some c ->
  (exists_ <- collection_exists name ;;
   if negb exists_ then raise (ValueError (msg_no_existe name)) else k) st
  = k (logged st [GetCollections]).
Proof.
  intros H. rewrite (bind_ok _ _ _ _ _ (collection_exists_run name st)).
  now rewrite H.
Qed.

Lemma endpoint_raise {A} (ok code : Z) (m : M A) (st st' : Store) (e : exn) :
  m st = (Raise e, st') ->
  endpoint ok code m st
  = (HTTPException (if is_ValueError e then code else 500) (exn_str e), st').
Proof. intros H. unfold endpoint. now rewrite H. Qed.

(** ** Reading a collection *)

(** What the validation keeps of a metadata that passes it. *)
Lemma stats_of_valid (name : string) (c : Collection) :
  metadata_validates (col_metadata c) = true ->
  exists stats : CollectionStats.t,
    stats_of name (info_of c) = Ok stats
    /\ CollectionStats.name stats = name
    /\ CollectionStats.vector_size stats = size (col_vectors c)
    /\ CollectionStats.distance stats = Distance_name (distance (col_vectors c))
    /\ CollectionStats.points_count stats = or_zero (col_points_count c)
    /\ opt_str (CollectionStats.description stats)
       = dict_get (or_empty (col_metadata c)) "description"
    /\ opt_str (CollectionStats.created_at stats)
       = dict_get (or_empty (col_metadata c)) "created_at".
Proof.
  unfold metadata_validates, is_optional_str, stats_of, info_of.
  cbn [config metadata params vectors points_count indexed_vectors_count status].
  intros V. apply andb_true_iff in V as [Vd Vc].
  destruct (dict_get (or_empty (col_metadata c)) "description") as [| | |d| |];
    try discriminate Vd;
    destruct (dict_get (or_empty (col_metadata c)) "created_at") as [| | |t| |];
    try discriminate Vc;
    eexists; (split; [reflexivity|]); repeat split.
Qed.

(** What the validation does to a metadata that does not pass it. *)
Lemma stats_of_invalid (name : string) (c : Collection) :
  metadata_validates (col_metadata c) = false ->
  exists fields : list string,
    stats_of name (info_of c) = Raise (ValidationError "CollectionStats" fields).
Proof.
  unfold metadata_validates, is_optional_str, stats_of, info_of.
  cbn [config metadata params vectors points_count indexed_vectors_count status].
  intros V.
  destruct (optional_str (dict_get (or_empty (col_metadata c)) "description"));
    destruct (optional_str (dict_get (or_empty (col_metadata c)) "created_at"));
    try discriminate V; eexists; reflexivity.
Qed.

Lemma get_collection_info_found (name : string) (st : Store) (c : Collection) :
  find_collection name (collections st) = Some c ->
  get_collection_info name st
  = (stats_of name (info_of c), logged st [GetCollections; GetCollection name]).
Proof.
  intros H. unfold get_collection_info.
  rewrite (present_continues _ _ _ c H).
  rewrite (bind_ok _ _ _ _ _
             (client_get_collection_run name (logged st [GetCollections]) c H)).
  unfold lift. now rewrite logged_logged.
Qed.

(** C9. An update of a missing collection raises the not-found [ValueError]
    (404 at the handler). An update of an existing collection sends the
    store one metadata dict with exactly the two keys [description] and
    [updated_at], the latter bound to the current time; [created_at] is not a
    key of what is written. *)
Theorem update_writes_description_and_updated_at
        (merge_metadata : option pydict -> pydict -> option pydict)
        (now : string) (st : Store) (name : string)
        (description : option string) :
  (find_collection name (collections st) = None ->
   update_collection merge_metadata now name description st
   = (Raise (ValueError (msg_no_existe name)), logged st [GetCollections])
   /\ API.update_collection merge_metadata now name
        {| upd_description := description |} st
      = (HTTPException 404 (msg_no_existe name), logged st [GetCollections]))
  /\
  (forall c : Collection,
      find_collection name (collections st) = Some c ->
      let written := [ ("description", opt_str description);
                       ("updated_at", PStr now) ] in
      update_collection merge_metadata now name description st
      = (Ok (success name ("Colección '" ++ name ++ "' actualizada correctamente")),
         stored st
           (modify_collection name
              (with_metadata (merge_metadata (col_metadata c) written))
              (collections st))
           [GetCollections; UpdateCollection name written])
      /\ map fst written = ["description"; "updated_at"]
      /\ dict_mem "created_at" written = false).
Proof.
  split.
  - intros H.
    assert (E : update_collection merge_metadata now name description st
                = (Raise (ValueError (msg_no_existe name)),
                   logged st [GetCollections])).
    { unfold update_collection. now apply missing_raises. }
    split; [exact E|].
    unfold API.update_collection. now rewrite (endpoint_raise _ _ _ _ _ _ E).
  - intros c H written. split; [|split; reflexivity].
    unfold update_collection.
    rewrite (present_continues _ _ _ c H).
    rewrite (bind_ok _ _ _ _ _
               (client_update_collection_run merge_metadata name written
                  (logged st [GetCollections]) c H)).
    unfold ret. now rewrite stored_logged.
Qed.

Lemma update_writes_description_and_updated_at_witness :
  find_collection "Curso_102" (collections sample_store) = None /\
  API.update_collection (fun _ new => Some new) "2026-01-21T08:00:00"
    "Curso_102" {| upd_description := Some "nueva" |} sample_store
  = (HTTPException 404 "La colección 'Curso_102' no existe",
     logged sample_store [GetCollections]) /\
  find_collection "Curso_101" (collections sample_store) = Some sample_collection /\
  trace (snd (update_collection (fun _ new => Some new) "2026-01-21T08:00:00"
                "Curso_101" (Some "nueva") sample_store))
  = [ GetCollections;
      UpdateCollection "Curso_101"
        [ ("description", PStr "nueva");
          ("updated_at", PStr "2026-01-21T08:00:00") ] ].
Proof.
  pose proof (update_writes_description_and_updated_at
                (fun _ new => Some new) "2026-01-21T08:00:00" sample_store
                "Curso_102" (Some "nueva")) as [Hmiss _].
  pose proof (update_writes_description_and_updated_at
                (fun _ new => Some new) "2026-01-21T08:00:00" sample_store
                "Curso_101" (Some "nueva")) as [_ Hpres].
  refine (conj eq_refl (conj (proj2 (Hmiss eq_refl)) (conj eq_refl _))).
  destruct (Hpres sample_collection eq_refl) as [E _].
  rewrite E. reflexivity.
Defined.

(** C10. When the store reports no point count for an existing collection,
    the guard [info.points_count > 0] of a deletion raises a [TypeError],
    with or without [force]: the collection is not deleted and the handler
    answers 500, while [get_collection_info], on a metadata that passes its
    validation, reads the same absent count as 0. *)
Theorem delete_without_count_raises
        (st : Store) (name : string) (force : bool) (c : Collection) :
  find_collection name (collections st) = Some c ->
  col_points_count c = None ->
  delete_collection name force st
  = (Raise (TypeError "'>' not supported between instances of 'NoneType' and 'int'"),
     logged st [GetCollections; GetCollection name])
  /\ API.delete_collection name force st
     = (HTTPException 500
          "'>' not supported between instances of 'NoneType' and 'int'",
        logged st [GetCollections; GetCollection name])
  /\ (metadata_validates (col_metadata c) = true ->
      exists stats : CollectionStats.t,
        get_collection_info name st
        = (Ok stats, logged st [GetCollections; GetCollection name])
        /\ CollectionStats.points_count stats = 0).
Proof.
  intros H Hn.
  assert (E : delete_collection name force st
              = (Raise (TypeError
                          "'>' not supported between instances of 'NoneType' and 'int'"),
                 logged st [GetCollections; GetCollection name])).
  { unfold delete_collection.
    rewrite (present_continues _ _ _ c H).
    rewrite (bind_ok _ _ _ _ _
               (client_get_collection_run name (logged st [GetCollections]) c H)).
    unfold info_of; simpl. rewrite Hn. unfold gt_zero, bind, raise.
    now rewrite logged_logged. }
  split; [exact E|]. split.
  - unfold API.delete_collection. now rewrite (endpoint_raise _ _ _ _ _ _ E).
  - intros V.
    destruct (stats_of_valid name c V) as (stats & S & _ & _ & _ & Hp & _).
    exists stats. split.
    + now rewrite (get_collection_info_found name st c H), S.
    + rewrite Hp, Hn. reflexivity.
Qed.

Lemma delete_without_count_raises_witness :
  find_collection "Curso_101" (collections uncounted_store)
  = Some uncounted_collection /\
  col_points_count uncounted_collection = None /\
  API.delete_collection "Curso_101" true uncounted_store
  = (HTTPException 500
       "'>' not supported between instances of 'NoneType' and 'int'",
     logged uncounted_store [GetCollections; GetCollection "Curso_101"]) /\
  metadata_validates (col_metadata uncounted_collection) = true /\
  exists stats : CollectionStats.t,
    get_collection_info "Curso_101" uncounted_store
    = (Ok stats,
       logged uncounted_store [GetCollections; GetCollection "Curso_101"])
    /\ CollectionStats.points_count stats = 0.
Proof.
  destruct (delete_without_count_raises uncounted_store "Curso_101" true
              uncounted_collection eq_refl eq_refl) as (_ & Hraise & Hread).
  exact (conj eq_refl (conj eq_refl (conj Hraise (conj eq_refl (Hread eq_refl))))).
Defined.

(** C6. A deletion of a missing collection raises the not-found
    [ValueError]. For a collection whose reported point count is positive,
    a deletion without [force] raises the not-empty [ValueError] (400 at the
    handler) and leaves every collection in place, and a deletion with
    [force] succeeds and removes the collection from the store. *)
Theorem delete_guarded_by_force (st : Store) (name : string) :
  (forall force : bool,
      find_collection name (collections st) = None ->
      delete_collection name force st
      = (Raise (ValueError (msg_no_existe name)), logged st [GetCollections]))
  /\
  (forall (c : Collection) (n : Z),
      find_collection name (collections st) = Some c ->
      col_points_count c = Some n ->
      0 < n ->
      (delete_collection name false st
       = (Raise (ValueError (msg_tiene_vectores name)),
          logged st [GetCollections; GetCollection name])
       /\ API.delete_collection name false st
          = (HTTPException 400 (msg_tiene_vectores name),
             logged st [GetCollections; GetCollection name]))
      /\
      (delete_collection name true st
       = (Ok (success name ("Colección '" ++ name ++ "' eliminada correctamente")),
          stored st (remove_collection name (collections st))
            [GetCollections; GetCollection name; DeleteCollection name])
       /\ find_collection name (remove_collection name (collections st)) = None)).
Proof.
  split.
  - intros force H. unfold delete_collection. now apply missing_raises.
  - intros c n H Hc Hn.
    assert (G : forall force,
               delete_collection name force st
               = (if negb force
                  then raise (ValueError (msg_tiene_vectores name))
                  else (client_delete_collection name ;;;
                        ret (success name
                               ("Colección '" ++ name
                                  ++ "' eliminada correctamente"))))
                   (logged st [GetCollections; GetCollection name])).
    { intros force. unfold delete_collection.
      rewrite (present_continues _ _ _ c H).
      rewrite (bind_ok _ _ _ _ _
                 (client_get_collection_run name (logged st [GetCollections]) c H)).
      unfold info_of; simpl points_count. rewrite Hc. unfold gt_zero.
      rewrite (bind_ok _ _ _ (logged (logged st [GetCollections])
                                [GetCollection name]) (0 <? n) eq_refl).
      apply Z.ltb_lt in Hn. rewrite Hn, logged_logged. reflexivity. }
    split.
    + assert (E : delete_collection name false st
                  = (Raise (ValueError (msg_tiene_vectores name)),
                     logged st [GetCollections; GetCollection name]))
        by (rewrite G; reflexivity).
      split; [exact E|].
      unfold API.delete_collection. now rewrite (endpoint_raise _ _ _ _ _ _ E).
    + split; [|apply find_remove].
      rewrite G. change (negb true) with false. cbv iota.
      rewrite (bind_ok _ _ _ _ _ (client_delete_collection_run name _)).
      unfold ret. rewrite stored_logged. reflexivity.
Qed.

Lemma delete_guarded_by_force_witness :
  find_collection "Curso_102" (collections sample_store) = None /\
  delete_collection "Curso_102" true sample_store
  = (Raise (ValueError "La colección 'Curso_102' no existe"),
     logged sample_store [GetCollections]) /\
  find_collection "Curso_101" (collections sample_store) = Some sample_collection /\
  col_points_count sample_collection = Some 5 /\
  0 < 5 /\
  API.delete_collection "Curso_101" false sample_store
  = (HTTPException 400 "La colección 'Curso_101' tiene vectores. Use force=true.",
     logged sample_store [GetCollections; GetCollection "Curso_101"]) /\
  collections (snd (delete_collection "Curso_101" true sample_store)) = [].
Proof.
  pose proof (delete_guarded_by_force sample_store "Curso_102") as [Hmiss _].
  pose proof (delete_guarded_by_force sample_store "Curso_101") as [_ Hpres].
  assert (Hpos : 0 < 5) by reflexivity.
  destruct (Hpres sample_collection 5 eq_refl eq_refl Hpos)
    as [[_ Hrefused] [Hforced _]].
  refine (conj eq_refl (conj (Hmiss true eq_refl)
            (conj eq_refl (conj eq_refl (conj Hpos (conj Hrefused _)))))).
  rewrite Hforced. reflexivity.
Defined.

(** C5. Clearing a missing collection raises the not-found [ValueError]
    (404 at the handler). Clearing an existing collection, when the store
    accepts back the configuration it holds, deletes it and creates it again
    with the vector parameters and the metadata read just before: afterwards
    the collection has the same vector parameters and metadata and no
    points, and [get_collection_info], on a metadata that passes its
    validation, reports the same vector size, distance, description and
    creation time as before, with a point count of 0. *)
Theorem clear_keeps_configuration
        (create_refused : string -> VectorParams -> option exn)
        (st : Store) (name : string) :
  (find_collection name (collections st) = None ->
   clear_collection create_refused name st
   = (Raise (ValueError (msg_no_existe name)), logged st [GetCollections])
   /\ API.clear_collection create_refused name st
      = (HTTPException 404 (msg_no_existe name), logged st [GetCollections]))
  /\
  (forall c : Collection,
      find_collection name (collections st) = Some c ->
      create_refused name (col_vectors c) = None ->
      let c' := fresh_collection name (col_vectors c) (col_metadata c) in
      let st' := snd (clear_collection create_refused name st) in
      clear_collection create_refused name st
      = (Ok (success name ("Colección '" ++ name ++ "' limpiada correctamente")),
         stored st (remove_collection name (collections st) ++ [c'])
           [ GetCollections; GetCollection name; DeleteCollection name;
             CreateCollection name (col_vectors c) (col_metadata c) ])
      /\ find_collection name (collections st') = Some c'
      /\ col_vectors c' = col_vectors c
      /\ col_metadata c' = col_metadata c
      /\ col_points c' = []
      /\ (metadata_validates (col_metadata c) = true ->
          exists before after : CollectionStats.t,
            fst (get_collection_info name st) = Ok before
            /\ fst (get_collection_info name st') = Ok after
            /\ CollectionStats.vector_size after
               = CollectionStats.vector_size before
            /\ CollectionStats.distance after = CollectionStats.distance before
            /\ CollectionStats.description after
               = CollectionStats.description before
            /\ CollectionStats.created_at after
               = CollectionStats.created_at before
            /\ CollectionStats.points_count after = 0)).
Proof.
  split.
  - intros H.
    assert (E : clear_collection create_refused name st
                = (Raise (ValueError (msg_no_existe name)),
                   logged st [GetCollections])).
    { unfold clear_collection. now apply missing_raises. }
    split; [exact E|].
    unfold API.clear_collection. now rewrite (endpoint_raise _ _ _ _ _ _ E).
  - intros c H Ha c' st'.
    assert (E : clear_collection create_refused name st
                = (Ok (success name
                         ("Colección '" ++ name ++ "' limpiada correctamente")),
                   stored st (remove_collection name (collections st) ++ [c'])
                     [ GetCollections; GetCollection name; DeleteCollection name;
                       CreateCollection name (col_vectors c) (col_metadata c) ])).
    { unfold clear_collection.
      rewrite (present_continues _ _ _ c H).
      rewrite (bind_ok _ _ _ _ _
                 (client_get_collection_run name (logged st [GetCollections]) c H)).
      rewrite (bind_ok _ _ _ _ _ (client_delete_collection_run name _)).
      erewrite bind_ok
        by (apply client_create_collection_run;
            [exact Ha|simpl; apply find_remove]).
      unfold ret, stored, logged; simpl. rewrite <- !app_assoc. reflexivity. }
    assert (F : find_collection name (collections st') = Some c').
    { unfold st'. rewrite E. simpl.
      apply find_app_last; [apply find_remove|reflexivity]. }
    split; [exact E|]. split; [exact F|].
    split; [reflexivity|]. split; [reflexivity|]. split; [reflexivity|].
    intros V.
    destruct (stats_of_valid name c V)
      as (before & Sb & _ & Bs & Bd & _ & Bdesc & Bcreated).
    destruct (stats_of_valid name c' V)
      as (after & Sa & _ & As' & Ad & Ap & Adesc & Acreated).
    exists before, after.
    rewrite (get_collection_info_found name st c H), Sb.
    rewrite (get_collection_info_found name st' c' F), Sa.
    split; [reflexivity|]. split; [reflexivity|].
    split; [now rewrite As', Bs|]. split; [now rewrite Ad, Bd|].
    assert (I : forall a b : option string, opt_str a = opt_str b -> a = b).
    { intros [a|] [b|]; simpl; congruence. }
    split; [apply I; now rewrite Adesc, Bdesc|].
    split; [apply I; now rewrite Acreated, Bcreated|].
    now rewrite Ap.
Qed.

Lemma clear_keeps_configuration_witness :
  find_collection "Curso_102" (collections sample_store) = None /\
  API.clear_collection sample_refusal "Curso_102" sample_store
  = (HTTPException 404 "La colección 'Curso_102' no existe",
     logged sample_store [GetCollections]) /\
  find_collection "Curso_101" (collections sample_store) = Some sample_collection /\
  sample_refusal "Curso_101" (col_vectors sample_collection) = None /\
  collections (snd (clear_collection sample_refusal "Curso_101" sample_store))
  = [ fresh_collection "Curso_101" {| size := 768; distance := COSINE |}
        (Some [ ("description", PStr "Cursos");
                ("created_at", PStr "2026-01-20T13:00:00") ]) ] /\
  metadata_validates (col_metadata sample_collection) = true /\
  exists before after : CollectionStats.t,
    fst (get_collection_info "Curso_101" sample_store) = Ok before
    /\ fst (get_collection_info "Curso_101"
              (snd (clear_collection sample_refusal "Curso_101" sample_store)))
       = Ok after
    /\ CollectionStats.vector_size after = CollectionStats.vector_size before
    /\ CollectionStats.points_count after = 0.
Proof.
  pose proof (clear_keeps_configuration sample_refusal sample_store "Curso_102")
    as [Hmiss _].
  pose proof (clear_keeps_configuration sample_refusal sample_store "Curso_101")
    as [_ Hpres].
  destruct (Hpres sample_collection eq_refl eq_refl)
    as (E & _ & _ & _ & _ & Hread).
  destruct (Hread eq_refl) as (before & after & Hb & Ha & Hs & _ & _ & _ & Hp).
  refine (conj eq_refl (conj (proj2 (Hmiss eq_refl))
            (conj eq_refl (conj eq_refl (conj _ (conj eq_refl _)))))).
  - rewrite E. reflexivity.
  - exists before, after. auto.
Defined.

(** ** Documents *)

(** C1 on the code. [Filter], [FieldCondition] and [MatchValue] are bound
    nowhere in the module, so for every existing collection and every
    filename the deletion of a document raises [NameError] while it builds
    the filter of its scan: no point is counted or deleted, and the handler
    answers 500 where the claim expects 404 or a count of deleted points. *)
Theorem delete_document_raises_name_error
        (st : Store) (collection_name filename : string) (c : Collection) :
  find_collection collection_name (collections st) = Some c ->
  delete_document_by_filename collection_name filename st
  = (Raise (NameError "Filter"), logged st [GetCollections])
  /\ API.delete_document collection_name filename st
     = (HTTPException 500 "name 'Filter' is not defined",
        logged st [GetCollections]).
Proof.
  intros H.
  assert (E : delete_document_by_filename collection_name filename st
              = (Raise (NameError "Filter"), logged st [GetCollections])).
  { unfold delete_document_by_filename.
    rewrite (present_continues _ _ _ c H).
    reflexivity. }
  split; [exact E|].
  unfold API.delete_document. now rewrite (endpoint_raise _ _ _ _ _ _ E).
Qed.

Lemma delete_document_raises_name_error_witness :
  find_collection "Curso_101" (collections sample_store) = Some sample_collection /\
  count_key (HStr "a.pdf") (col_points sample_collection) = 3%nat /\
  count_key (HStr "z.pdf") (col_points sample_collection) = 0%nat /\
  API.delete_document "Curso_101" "a.pdf" sample_store
  = (HTTPException 500 "name 'Filter' is not defined",
     logged sample_store [GetCollections]) /\
  API.delete_document "Curso_101" "z.pdf" sample_store
  = (HTTPException 500 "name 'Filter' is not defined",
     logged sample_store [GetCollections]).
Proof.
  refine (conj eq_refl (conj eq_refl (conj eq_refl (conj _ _)))).
  - exact (proj2 (delete_document_raises_name_error sample_store "Curso_101"
                    "a.pdf" sample_collection eq_refl)).
  - exact (proj2 (delete_document_raises_name_error sample_store "Curso_101"
                    "z.pdf" sample_collection eq_refl)).
Defined.

(** C2 on the code. The class defines no [get_collection_documents_count],
    so for an existing collection the statistics handler never answers 200:
    when the metadata of the collection passes the validation of
    [CollectionStats], the handler reads the collection and then raises
    [AttributeError], answered 500; in every case its answer is an error,
    404 or 500, after the read. For a missing collection it answers 404. *)
Theorem stats_of_existing_collection_is_500
        (create_refused : string -> VectorParams -> option exn)
        (fuel : nat) (st : Store) (collection_name : string) :
  (find_collection collection_name (collections st) = None ->
   API.get_collection_stats create_refused fuel collection_name st
   = (HTTPException 404 (msg_no_existe collection_name),
      logged st [GetCollections]))
  /\
  (forall c : Collection,
      find_collection collection_name (collections st) = Some c ->
      metadata_validates (col_metadata c) = true ->
      API.get_collection_stats create_refused fuel collection_name st
      = (HTTPException 500
           "'QdrantCollectionManager' object has no attribute 'get_collection_documents_count'",
         logged st [GetCollections; GetCollection collection_name]))
  /\
  (forall c : Collection,
      find_collection collection_name (collections st) = Some c ->
      exists (code : Z) (detail : string),
        API.get_collection_stats create_refused fuel collection_name st
        = (HTTPException code detail,
           logged st [GetCollections; GetCollection collection_name])
        /\ (code = 404 \/ code = 500)).
Proof.
  assert (P : forall c stats,
             find_collection collection_name (collections st) = Some c ->
             stats_of collection_name (info_of c) = Ok stats ->
             API.get_collection_stats create_refused fuel collection_name st
             = (HTTPException 500
                  "'QdrantCollectionManager' object has no attribute 'get_collection_documents_count'",
                logged st [GetCollections; GetCollection collection_name])).
  { intros c stats H S. unfold API.get_collection_stats.
    pose proof (get_collection_info_found collection_name st c H) as I.
    rewrite S in I.
    erewrite endpoint_raise
      by (rewrite (bind_ok _ _ _ _ _ I); apply bind_raise; reflexivity).
    reflexivity. }
  split; [|split].
  - intros H. unfold API.get_collection_stats.
    erewrite endpoint_raise
      by (apply bind_raise; unfold get_collection_info;
          apply missing_raises; exact H).
    reflexivity.
  - intros c H V. destruct (stats_of_valid collection_name c V) as (stats & S & _).
    exact (P c stats H S).
  - intros c H.
    destruct (metadata_validates (col_metadata c)) eqn:V.
    + destruct (stats_of_valid collection_name c V) as (stats & S & _).
      eexists; eexists. split; [exact (P c stats H S)|now right].
    + destruct (stats_of_invalid collection_name c V) as (fields & S).
      pose proof (get_collection_info_found collection_name st c H) as I.
      rewrite S in I.
      eexists; eexists. split; [|left; reflexivity].
      unfold API.get_collection_stats.
      erewrite endpoint_raise by (apply bind_raise; exact I).
      reflexivity.
Qed.

Lemma stats_of_existing_collection_is_500_witness :
  find_collection "Curso_101" (collections sample_store) = Some sample_collection /\
  metadata_validates (col_metadata sample_collection) = true /\
  API.get_collection_stats sample_refusal 1 "Curso_101" sample_store
  = (HTTPException 500
       "'QdrantCollectionManager' object has no attribute 'get_collection_documents_count'",
     logged sample_store [GetCollections; GetCollection "Curso_101"]).
Proof.
  refine (conj eq_refl (conj eq_refl _)).
  exact (proj1 (proj2 (stats_of_existing_collection_is_500 sample_refusal 1
                         sample_store "Curso_101"))
           sample_collection eq_refl eq_refl).
Defined.

(** *** The scan *)

Lemma map_project_true (l : list Point) : map (project true) l = l.
Proof. induction l as [|p l IH]; simpl; [reflexivity|now rewrite IH]. Qed.

Lemma client_scroll_run (name : string) (f : option Filter) (limit : Z)
      (offset : option nat) (with_payload : bool) (st : Store) (c : Collection) :
  find_collection name (collections st) = Some c ->
  client_scroll name f limit offset with_payload st
  = (Ok (scroll_page (col_points c) f limit offset with_payload),
     logged st [Scroll name f limit offset with_payload]).
Proof.
  intros H. unfold client_scroll, bind, log, get_cols; simpl. now rewrite H.
Qed.

Lemma scroll_page_all (pts : list Point) (offset : option nat) :
  let rest := skipn (or_start offset) pts in
  scroll_page pts None 100 offset true
  = (firstn 100 rest,
     if Nat.ltb 100 (List.length rest)
     then Some (or_start offset + 100)%nat else None).
Proof.
  intros rest. unfold scroll_page, select.
  change (Z.to_nat 100) with 100%nat. now rewrite map_project_true.
Qed.

(** With enough fuel the loop ends and has collected every point from the
    cursor on; it changes no collection. *)
Lemma scroll_all_run (name : string) (c : Collection) (fuel : nat) :
  forall (offset : option nat) (acc : list Point) (st : Store),
    find_collection name (collections st) = Some c ->
    (List.length (skipn (or_start offset) (col_points c)) < 100 * fuel)%nat ->
    exists calls : list Call,
      scroll_all fuel name acc offset st
      = (Ok (acc ++ skipn (or_start offset) (col_points c))%list,
         logged st calls).
Proof.
  induction fuel as [|fuel IH]; intros offset acc st H Hlen; [lia|].
  cbn [scroll_all].
  rewrite (bind_ok _ _ _ _ _
             (client_scroll_run name None 100 offset true st c H)).
  rewrite scroll_page_all. cbn [fst snd].
  set (rest := skipn (or_start offset) (col_points c)) in *.
  destruct (Nat.ltb 100 (List.length rest)) eqn:E.
  - apply Nat.ltb_lt in E.
    destruct (IH (Some (or_start offset + 100)%nat)
                 (acc ++ firstn 100 rest)%list
                 (logged st [Scroll name None 100 offset true]) H)
      as [calls Hcalls].
    + cbn [or_start]. rewrite Nat.add_comm, <- skipn_skipn. fold rest.
      rewrite length_skipn. lia.
    + exists ([Scroll name None 100 offset true] ++ calls)%list.
      rewrite Hcalls. rewrite logged_logged. cbn [or_start].
      rewrite Nat.add_comm, <- skipn_skipn. fold rest.
      rewrite <- app_assoc, firstn_skipn. reflexivity.
  - apply Nat.ltb_ge in E.
    exists [Scroll name None 100 offset true].
    unfold ret. rewrite firstn_all2 by exact E. reflexivity.
Qed.

(** *** The grouping *)

Lemma hkey_eqb_eq (a b : hkey) : hkey_eqb a b = true <-> a = b.
Proof.
  destruct a, b; simpl; split; intros H; try discriminate; try reflexivity.
  - apply Z.eqb_eq in H. now subst.
  - injection H as ->. apply Z.eqb_refl.
  - apply String.eqb_eq in H. now subst.
  - injection H as ->. apply String.eqb_refl.
Qed.

Lemma hkey_eqb_refl (a : hkey) : hkey_eqb a a = true.
Proof. now apply hkey_eqb_eq. Qed.

Lemma hkey_eqb_neq (a b : hkey) : hkey_eqb a b = false <-> a <> b.
Proof.
  split.
  - intros H E. apply hkey_eqb_eq in E. congruence.
  - intros H. destruct (hkey_eqb a b) eqn:E; [|reflexivity].
    apply hkey_eqb_eq in E. contradiction.
Qed.

Lemma has_key_true (k : hkey) (p : Point) :
  has_key k p = true <-> hash_key (filename_of p) = Ok k.
Proof.
  unfold has_key. destruct (hash_key (filename_of p)) as [k'| |].
  - rewrite hkey_eqb_eq. split; [intros ->; reflexivity|intros [= ->]; reflexivity].
  - split; discriminate.
  - split; discriminate.
Qed.

Lemma has_key_other (k k' : hkey) (p : Point) :
  hash_key (filename_of p) = Ok k -> k' <> k -> has_key k' p = false.
Proof.
  intros H N. unfold has_key. rewrite H. now apply hkey_eqb_neq.
Qed.

Lemma docs_mem_In (k : hkey) (ds : documents_dict) :
  docs_mem k ds = true <-> In k (map fst ds).
Proof.
  unfold docs_mem. rewrite existsb_exists. split.
  - intros [[k' d] [Hin E]]. apply hkey_eqb_eq in E. simpl in E. subst.
    apply (in_map fst) in Hin. exact Hin.
  - intros Hin. apply in_map_iff in Hin as [[k' d] [E Hin]]. simpl in E. subst.
    exists (k, d). split; [exact Hin|apply hkey_eqb_refl].
Qed.

Lemma docs_incr_keys (k : hkey) (ds : documents_dict) :
  map fst (docs_incr k ds) = map fst ds.
Proof.
  induction ds as [|[k' d] ds IH]; simpl; [reflexivity|].
  destruct (hkey_eqb k k'); simpl; [reflexivity|now rewrite IH].
Qed.

(** After [documents[k]["chunks_count"] += 1] an entry is either an entry of
    another key, untouched, or the entry of [k] with one more chunk. *)
Lemma docs_incr_In (k : hkey) (ds : documents_dict) (k' : hkey) (d' : Document) :
  NoDup (map fst ds) ->
  In (k', d') (docs_incr k ds) ->
  (k' <> k /\ In (k', d') ds) \/
  (k' = k /\ exists d, In (k, d) ds /\ d' = incr_chunks d).
Proof.
  induction ds as [|[k0 d0] ds IH]; simpl; intros ND Hin; [contradiction|].
  inversion ND as [|? ? Hnot ND']; subst.
  destruct (hkey_eqb k k0) eqn:E.
  - apply hkey_eqb_eq in E. subst k0.
    destruct Hin as [[= <- <-]|Hin].
    + right. split; [reflexivity|]. exists d0. auto.
    + left. split; [|auto].
      intros ->. apply Hnot. apply (in_map fst) in Hin. exact Hin.
  - apply hkey_eqb_neq in E.
    destruct Hin as [[= <- <-]|Hin].
    + left. split; [congruence|auto].
    + destruct (IH ND' Hin) as [[N I]|[-> [d [I ->]]]].
      * left. auto.
      * right. split; [reflexivity|]. exists d. auto.
Qed.

Lemma count_key_snoc (k : hkey) (l : list Point) (p : Point) :
  count_key k (l ++ [p]) = (count_key k l + (if has_key k p then 1 else 0))%nat.
Proof.
  unfold count_key. rewrite filter_app, length_app. simpl.
  destruct (has_key k p); reflexivity.
Qed.

Lemma count_key_none (k : hkey) (l : list Point) :
  (forall q, In q l -> has_key k q = false) -> count_key k l = 0%nat.
Proof.
  unfold count_key. induction l as [|q l IH]; intros H; simpl; [reflexivity|].
  rewrite (H q) by (left; reflexivity). apply IH.
  intros q' Hq'. apply H. now right.
Qed.

Lemma first_with_key_snoc (k : hkey) (p q : Point) (l : list Point) :
  first_with_key k p l -> first_with_key k p (l ++ [q]).
Proof.
  intros (before & after & -> & Hk & Hb).
  exists before, (after ++ [q])%list. split; [|auto].
  now rewrite <- app_assoc.
Qed.

Lemma first_with_key_last (k : hkey) (p : Point) (l : list Point) :
  (forall q, In q l -> has_key k q = false) ->
  has_key k p = true ->
  first_with_key k p (l ++ [p]).
Proof.
  intros Hb Hk. exists l, []. auto.
Qed.

Lemma attributes_from_new (p : Point) : attributes_from p (new_document p).
Proof. repeat split. Qed.

Lemma NoDup_snoc {A} (l : list A) (a : A) :
  NoDup l -> ~ In a l -> NoDup (l ++ [a]).
Proof.
  induction l as [|b l IH]; intros ND Hn; simpl.
  - constructor; [intros []|constructor].
  - inversion ND as [|? ? Hb ND']; subst. constructor.
    + rewrite in_app_iff. intros [Hin|[->|[]]]; [contradiction|].
      apply Hn. now left.
    + apply IH; [exact ND'|]. intros Hin. apply Hn. now right.
Qed.

(** Points seen so far have no key outside the dict. *)
Lemma grouped_absent (done : list Point) (docs : documents_dict) (k : hkey) :
  grouped done docs -> ~ In k (map fst docs) ->
  forall q, In q done -> has_key k q = false.
Proof.
  intros (_ & Hcov & _) Hnot q Hq.
  destruct (Hcov q Hq) as (k' & Hk' & Hin).
  apply (has_key_other k'); [exact Hk'|]. intros ->. contradiction.
Qed.

(** One iteration of the loop keeps the dict a grouping of the points seen. *)
Lemma grouped_step (done : list Point) (docs : documents_dict) (p : Point)
      (k : hkey) :
  grouped done docs ->
  hash_key (filename_of p) = Ok k ->
  grouped (done ++ [p])
    (docs_incr k (if negb (docs_mem k docs)
                  then (docs ++ [(k, new_document p)])%list else docs)).
Proof.
  intros G Hk. pose proof G as (ND & Hcov & Hent).
  assert (Hhas : has_key k p = true) by now apply has_key_true.
  set (docs1 := if negb (docs_mem k docs)
                then (docs ++ [(k, new_document p)])%list else docs).
  assert (ND1 : NoDup (map fst docs1)).
  { unfold docs1. destruct (docs_mem k docs) eqn:E; simpl; [exact ND|].
    rewrite map_app. simpl. apply NoDup_snoc; [exact ND|].
    intros Hin. apply docs_mem_In in Hin. congruence. }
  assert (K1 : In k (map fst docs1)).
  { unfold docs1. destruct (docs_mem k docs) eqn:E; simpl.
    - now apply docs_mem_In.
    - rewrite map_app, in_app_iff. right. simpl. auto. }
  assert (Sub : forall k', In k' (map fst docs) -> In k' (map fst docs1)).
  { unfold docs1. destruct (docs_mem k docs); simpl; [auto|].
    intros k' Hin. rewrite map_app, in_app_iff. auto. }
  split; [|split].
  - rewrite docs_incr_keys. exact ND1.
  - intros q Hq. rewrite docs_incr_keys.
    apply in_app_iff in Hq as [Hq|[<-|[]]].
    + destruct (Hcov q Hq) as (k' & Hk' & Hin). exists k'. auto.
    + exists k. auto.
  - intros k' d' Hin.
    destruct (docs_incr_In k docs1 k' d' ND1 Hin)
      as [[N I]|[-> (d & I & ->)]].
    + assert (I0 : In (k', d') docs).
      { unfold docs1 in I. destruct (docs_mem k docs); simpl in I; [exact I|].
        apply in_app_iff in I as [I|[[= E _]|[]]]; [exact I|congruence]. }
      destruct (Hent k' d' I0) as (Hc & p0 & Hf & Ha).
      rewrite count_key_snoc, (has_key_other k k' p Hk N), Nat.add_0_r.
      split; [exact Hc|]. exists p0. split; [|exact Ha].
      now apply first_with_key_snoc.
    + rewrite count_key_snoc, Hhas. unfold docs1 in I.
      destruct (docs_mem k docs) eqn:E; simpl in I.
      * destruct (Hent k d I) as (Hc & p0 & Hf & Ha).
        split; [simpl; lia|]. exists p0. split; [|exact Ha].
        now apply first_with_key_snoc.
      * assert (Hnot : ~ In k (map fst docs)).
        { intros Hin'. apply docs_mem_In in Hin'. congruence. }
        apply in_app_iff in I as [I|[[= <-]|[]]].
        -- exfalso. apply Hnot. apply (in_map fst) in I. exact I.
        -- rewrite (count_key_none k done (grouped_absent done docs k G Hnot)).
           split; [reflexivity|]. exists p. split.
           ++ apply first_with_key_last; [|exact Hhas].
              exact (grouped_absent done docs k G Hnot).
           ++ apply attributes_from_new.
Qed.

Lemma grouped_nil : grouped [] [].
Proof.
  split; [constructor|]. split; [intros p []|intros k d []].
Qed.

(** The loop succeeds on hashable filenames and returns the grouping. *)
Lemma group_points_grouped (rest : list Point) :
  forall (done : list Point) (docs : documents_dict),
    grouped done docs ->
    (forall p, In p rest -> hashable p = true) ->
    exists docs',
      group_points rest docs = Ok docs' /\ grouped (done ++ rest) docs'.
Proof.
  induction rest as [|p rest IH]; intros done docs G Hh; simpl.
  - exists docs. rewrite app_nil_r. auto.
  - pose proof (Hh p (or_introl eq_refl)) as Hp. unfold hashable in Hp.
    destruct (hash_key (filename_of p)) as [k| |] eqn:Hk; try discriminate.
    destruct (IH (done ++ [p])%list _ (grouped_step done docs p k G Hk))
      as (docs' & E & G').
    + intros q Hq. apply Hh. now right.
    + exists docs'. split; [exact E|].
      now rewrite <- app_assoc in G'.
Qed.

Lemma NoDup_map_Ok (l : list hkey) :
  NoDup l -> NoDup (map (@Ok hkey) l).
Proof.
  induction 1 as [|k l Hn ND IH]; simpl; constructor; [|exact IH].
  intros Hin. apply in_map_iff in Hin as (k' & [= ->] & Hin). contradiction.
Qed.

(** The key of an entry is the key of the filename it carries. *)
Lemma grouped_entry_key (pts : list Point) (docs : documents_dict)
      (k : hkey) (d : Document) :
  grouped pts docs -> In (k, d) docs -> hash_key (filename d) = Ok k.
Proof.
  intros (_ & _ & Hent) Hin.
  destruct (Hent k d Hin) as (_ & p & (before & after & _ & Hk & _) & Ha).
  destruct Ha as (-> & _). now apply has_key_true.
Qed.

Lemma grouped_document_keys (pts : list Point) (docs : documents_dict) :
  grouped pts docs ->
  map (fun d => hash_key (filename d)) (map snd docs)
  = map (@Ok hkey) (map fst docs).
Proof.
  intros G. rewrite !map_map. apply map_ext_in.
  intros [k d] Hin. simpl. exact (grouped_entry_key pts docs k d G Hin).
Qed.

(** The listing of a sample collection: two documents, of three and of two
    chunks, out of five points. *)
Lemma list_documents_sample :
  exists a b : Document,
    fst (API.list_documents 1 "Curso_101" sample_store)
    = Response 200
        {| collection_name := "Curso_101";
           total_documents := 2;
           total_points := 5;
           documents := [a; b] |}
    /\ filename a = PStr "a.pdf" /\ chunks_count a = 3
    /\ filename b = PStr "b.pdf" /\ chunks_count b = 2.
Proof.
  eexists; eexists. split; [vm_compute; reflexivity|].
  repeat split.
Qed.

(** C4, as stated, fails: on a collection where the filename of a point is a
    list, the listing raises [TypeError] when it uses that filename as a
    dict key; no listing is returned, whatever the fuel, and the handler
    answers 500. *)
Lemma list_documents_unhashable_filename :
  In list_named_point
     (flat_map col_points (collections list_named_store)) /\
  (forall (fuel : nat) (r : DocumentListing),
      fst (list_documents_in_collection fuel "Curso_103" list_named_store)
      <> Ok r) /\
  fst (API.list_documents 1 "Curso_103" list_named_store)
  = HTTPException 500 "unhashable type: 'list'".
Proof.
  split; [simpl; auto|]. split; [|reflexivity].
  intros [|fuel] r; vm_compute; discriminate.
Qed.

(** C4, amended. For a collection whose points all carry a hashable
    filename (absent, null, boolean, integer or string), the listing, given
    fuel for the scan, returns: [total_points], the number of points of the
    collection; [total_documents], the number of documents listed; documents
    of pairwise distinct dict keys, one for the key of every point, a point
    without filename having the key of ["unknown"]; and for each document a
    [chunks_count] equal to the number of points of its key and the
    attributes of the first point of that key in scan order. *)
Theorem list_documents_groups_by_filename
        (fuel : nat) (st : Store) (name : string) (c : Collection) :
  find_collection name (collections st) = Some c ->
  (forall p, In p (col_points c) -> hashable p = true) ->
  (List.length (col_points c) < 100 * fuel)%nat ->
  exists (r : DocumentListing) (calls : list Call),
    list_documents_in_collection fuel name st = (Ok r, logged st calls)
    /\ collection_name r = name
    /\ total_points r = Z.of_nat (List.length (col_points c))
    /\ total_documents r = Z.of_nat (List.length (documents r))
    /\ NoDup (map (fun d => hash_key (filename d)) (documents r))
    /\ (forall p, In p (col_points c) ->
          exists d, In d (documents r)
                    /\ hash_key (filename d) = hash_key (filename_of p))
    /\ (forall p, In p (col_points c) ->
          dict_lookup "filename" (or_empty (payload p)) = None ->
          exists d, In d (documents r)
                    /\ hash_key (filename d) = Ok (HStr "unknown"))
    /\ (forall d, In d (documents r) ->
          exists k p,
            hash_key (filename d) = Ok k
            /\ chunks_count d = Z.of_nat (count_key k (col_points c))
            /\ first_with_key k p (col_points c)
            /\ attributes_from p d).
Proof.
  intros H Hh Hfuel.
  destruct (scroll_all_run name c fuel None [] (logged st [GetCollections]) H)
    as [calls Hscan]; [exact Hfuel|].
  cbn [or_start skipn app] in Hscan.
  destruct (group_points_grouped (col_points c) [] [] grouped_nil Hh)
    as (docs & Hgroup & G).
  cbn [app] in G.
  pose proof G as (ND & Hcov & Hent).
  assert (Cover : forall p, In p (col_points c) ->
            exists d, In d (map snd docs)
                      /\ hash_key (filename d) = hash_key (filename_of p)).
  { intros p Hp. destruct (Hcov p Hp) as (k & Hk & Hin).
    apply in_map_iff in Hin as ([k' d] & E & Hin). simpl in E. subst k'.
    exists d. split; [exact (in_map snd _ _ Hin)|].
    rewrite Hk. exact (grouped_entry_key _ _ k d G Hin). }
  exists {| collection_name := name;
            total_documents := Z.of_nat (List.length docs);
            total_points := Z.of_nat (List.length (col_points c));
            documents := map snd docs |},
         ([GetCollections] ++ calls)%list.
  split.
  { unfold list_documents_in_collection.
    rewrite (present_continues _ _ _ c H).
    rewrite (bind_ok _ _ _ _ _ Hscan).
    unfold bind, lift, ret. rewrite Hgroup, logged_logged. reflexivity. }
  cbn [collection_name total_points total_documents documents].
  split; [reflexivity|]. split; [reflexivity|].
  split; [now rewrite length_map|].
  split.
  { rewrite (grouped_document_keys _ _ G). now apply NoDup_map_Ok. }
  split; [exact Cover|]. split.
  - intros p Hp Hnone. destruct (Cover p Hp) as (d & Hd & E).
    exists d. split; [exact Hd|]. rewrite E.
    unfold filename_of, dict_get_default. now rewrite Hnone.
  - intros d Hd. apply in_map_iff in Hd as ([k d'] & E & Hin).
    simpl in E. subst d'.
    destruct (Hent k d Hin) as (Hc & p & Hf & Ha).
    exists k, p. split; [exact (grouped_entry_key _ _ k d G Hin)|]. auto.
Qed.

Lemma list_documents_groups_by_filename_witness :
  find_collection "Curso_101" (collections sample_store) = Some sample_collection /\
  (forall p, In p (col_points sample_collection) -> hashable p = true) /\
  (List.length (col_points sample_collection) < 100 * 1)%nat /\
  exists r : DocumentListing,
    fst (list_documents_in_collection 1 "Curso_101" sample_store) = Ok r
    /\ total_points r = 5
    /\ total_documents r = Z.of_nat (List.length (documents r)).
Proof.
  assert (Hh : forall p, In p (col_points sample_collection) -> hashable p = true).
  { intros p Hp. simpl in Hp.
    repeat (destruct Hp as [<-|Hp]; [reflexivity|]). contradiction. }
  assert (Hfuel : (List.length (col_points sample_collection) < 100 * 1)%nat).
  { simpl. lia. }
  refine (conj eq_refl (conj Hh (conj Hfuel _))).
  destruct (list_documents_groups_by_filename 1 sample_store "Curso_101"
              sample_collection eq_refl Hh Hfuel)
    as (r & calls & E & _ & Hpoints & Hdocs & _).
  exists r. rewrite E. split; [reflexivity|]. split; [exact Hpoints|exact Hdocs].
Defined.

(** * Further properties of the manager and of the handlers *)

(** ** Running the methods *)

Lemma get_collection_info_missing (name : string) (st : Store) :
  find_collection name (collections st) = None ->
  get_collection_info name st
  = (Raise (ValueError (msg_no_existe name)), logged st [GetCollections]).
Proof. intros H. unfold get_collection_info. now apply missing_raises. Qed.

Lemma create_collection_taken
      (index_fails : string -> string -> bool) (now : string)
      (create_refused : string -> VectorParams -> option exn) (st : Store)
      (name : string) (description : option string) (vector_size : Z)
      (distance : string) (c : Collection) :
  find_collection name (collections st) = Some c ->
  create_collection index_fails now create_refused name description
    vector_size distance st
  = (Raise (ValueError (msg_ya_existe name)), logged st [GetCollections]).
Proof.
  intros H. unfold create_collection.
  rewrite (bind_ok _ _ _ _ _ (collection_exists_run name st)).
  now rewrite H.
Qed.

Lemma update_collection_run
      (merge_metadata : option pydict -> pydict -> option pydict)
      (now : string) (st : Store) (name : string)
      (description : option string) (c : Collection) :
  find_collection name (collections st) = Some c ->
  update_collection merge_metadata now name description st
  = (Ok (success name ("Colección '" ++ name ++ "' actualizada correctamente")),
     stored st
       (modify_collection name
          (with_metadata
             (merge_metadata (col_metadata c)
                [ ("description", opt_str description);
                  ("updated_at", PStr now) ]))
          (collections st))
       [ GetCollections;
         UpdateCollection name [ ("description", opt_str description);
                                 ("updated_at", PStr now) ] ]).
Proof.
  intros H. unfold update_collection.
  rewrite (present_continues _ _ _ c H).
  erewrite bind_ok by (apply client_update_collection_run; exact H).
  unfold ret. now rewrite stored_logged.
Qed.

(** A deletion whose guard lets it through. *)
Lemma delete_collection_run (st : Store) (name : string) (force : bool)
      (c : Collection) (n : Z) :
  find_collection name (collections st) = Some c ->
  col_points_count c = Some n ->
  (0 <? n) && negb force = false ->
  delete_collection name force st
  = (Ok (success name ("Colección '" ++ name ++ "' eliminada correctamente")),
     stored st (remove_collection name (collections st))
       [GetCollections; GetCollection name; DeleteCollection name]).
Proof.
  intros H Hc Hg. unfold delete_collection.
  rewrite (present_continues _ _ _ c H).
  rewrite (bind_ok _ _ _ _ _
             (client_get_collection_run name (logged st [GetCollections]) c H)).
  unfold info_of; simpl points_count. rewrite Hc. unfold gt_zero.
  rewrite (bind_ok _ _ _ (logged (logged st [GetCollections])
                            [GetCollection name]) (0 <? n) eq_refl).
  rewrite Hg.
  rewrite (bind_ok _ _ _ _ _ (client_delete_collection_run name _)).
  unfold ret. rewrite logged_logged, stored_logged. reflexivity.
Qed.

(** A deletion that the guard refuses. *)
Lemma delete_collection_refused (st : Store) (name : string)
      (c : Collection) (n : Z) :
  find_collection name (collections st) = Some c ->
  col_points_count c = Some n ->
  (0 <? n) = true ->
  delete_collection name false st
  = (Raise (ValueError (msg_tiene_vectores name)),
     logged st [GetCollections; GetCollection name]).
Proof.
  intros H Hc Hg. unfold delete_collection.
  rewrite (present_continues _ _ _ c H).
  rewrite (bind_ok _ _ _ _ _
             (client_get_collection_run name (logged st [GetCollections]) c H)).
  unfold info_of; simpl points_count. rewrite Hc. unfold gt_zero.
  rewrite (bind_ok _ _ _ (logged (logged st [GetCollections])
                            [GetCollection name]) (0 <? n) eq_refl).
  rewrite Hg, logged_logged. reflexivity.
Qed.

(** A deletion when the store reports no count. *)
Lemma delete_collection_uncounted (st : Store) (name : string) (force : bool)
      (c : Collection) :
  find_collection name (collections st) = Some c ->
  col_points_count c = None ->
  exists e, delete_collection name force st
            = (Raise e, logged st [GetCollections; GetCollection name]).
Proof.
  intros H Hc. unfold delete_collection.
  rewrite (present_continues _ _ _ c H).
  rewrite (bind_ok _ _ _ _ _
             (client_get_collection_run name (logged st [GetCollections]) c H)).
  unfold info_of; simpl points_count. rewrite Hc. unfold gt_zero.
  eexists. unfold bind, raise. rewrite logged_logged. reflexivity.
Qed.

Lemma clear_collection_run
      (create_refused : string -> VectorParams -> option exn)
      (st : Store) (name : string) (c : Collection) :
  find_collection name (collections st) = Some c ->
  create_refused name (col_vectors c) = None ->
  clear_collection create_refused name st
  = (Ok (success name ("Colección '" ++ name ++ "' limpiada correctamente")),
     stored st
       (remove_collection name (collections st)
          ++ [fresh_collection name (col_vectors c) (col_metadata c)])
       [ GetCollections; GetCollection name; DeleteCollection name;
         CreateCollection name (col_vectors c) (col_metadata c) ]).
Proof.
  intros H Ha. unfold clear_collection.
  rewrite (present_continues _ _ _ c H).
  rewrite (bind_ok _ _ _ _ _
             (client_get_collection_run name (logged st [GetCollections]) c H)).
  rewrite (bind_ok _ _ _ _ _ (client_delete_collection_run name _)).
  erewrite bind_ok
    by (apply client_create_collection_run;
        [exact Ha|simpl; apply find_remove]).
  unfold ret, stored, logged; simpl. rewrite <- !app_assoc. reflexivity.
Qed.

(** A clearing whose re-creation the store refuses: the collection was
    deleted and is not created again. *)
Lemma clear_collection_refused
      (create_refused : string -> VectorParams -> option exn)
      (st : Store) (name : string) (c : Collection) (e : exn) :
  find_collection name (collections st) = Some c ->
  create_refused name (col_vectors c) = Some e ->
  clear_collection create_refused name st
  = (Raise e,
     stored st (remove_collection name (collections st))
       [ GetCollections; GetCollection name; DeleteCollection name;
         CreateCollection name (col_vectors c) (col_metadata c) ]).
Proof.
  intros H Hr. unfold clear_collection.
  rewrite (present_continues _ _ _ c H).
  rewrite (bind_ok _ _ _ _ _
             (client_get_collection_run name (logged st [GetCollections]) c H)).
  rewrite (bind_ok _ _ _ _ _ (client_delete_collection_run name _)).
  erewrite bind_raise
    by (apply client_create_collection_refused; exact Hr).
  unfold stored, logged; simpl. rewrite <- !app_assoc. reflexivity.
Qed.

Lemma endpoint_ok {A} (ok code : Z) (m : M A) (st st' : Store) (a : A) :
  m st = (Ok a, st') -> endpoint ok code m st = (Response ok a, st').
Proof. intros H. unfold endpoint. now rewrite H. Qed.

(** ** Lookups in a changed store *)

Lemma find_app (name : string) (cs : list Collection) (c : Collection) :
  find_collection name (cs ++ [c])
  = match find_collection name cs with
    | Some x => Some x
    | None => if String.eqb name (col_name c) then Some c else None
    end.
Proof.
  induction cs as [|c0 cs IH]; simpl; [reflexivity|].
  destruct (String.eqb name (col_name c0)); [reflexivity|exact IH].
Qed.

Lemma find_remove_other (name other : string) (cs : list Collection) :
  other <> name ->
  find_collection other (remove_collection name cs) = find_collection other cs.
Proof.
  intros N. induction cs as [|c cs IH]; simpl; [reflexivity|].
  destruct (String.eqb name (col_name c)) eqn:E; simpl.
  - apply String.eqb_eq in E. subst name.
    apply String.eqb_neq in N. now rewrite N.
  - now rewrite IH.
Qed.

Lemma find_modify_other (name other : string) (f : Collection -> Collection)
      (cs : list Collection) :
  other <> name ->
  (forall c, col_name (f c) = col_name c) ->
  find_collection other (modify_collection name f cs) = find_collection other cs.
Proof.
  intros N Hf. induction cs as [|c cs IH]; simpl; [reflexivity|].
  destruct (String.eqb name (col_name c)) eqn:E; simpl.
  - rewrite Hf. apply String.eqb_eq in E. subst name.
    apply String.eqb_neq in N. now rewrite N.
  - now rewrite IH.
Qed.

Lemma find_modify_same (name : string) (f : Collection -> Collection)
      (cs : list Collection) (c : Collection) :
  find_collection name cs = Some c ->
  (forall x, col_name (f x) = col_name x) ->
  find_collection name (modify_collection name f cs) = Some (f c).
Proof.
  intros H Hf. induction cs as [|c0 cs IH]; simpl in *; [discriminate|].
  destruct (String.eqb name (col_name c0)) eqn:E; simpl.
  - rewrite Hf, E. now injection H as ->.
  - rewrite E. now apply IH.
Qed.

(** ** Creation, seen through the handlers *)

Lemma created_collection_found
      (index_fails : string -> string -> bool) (now : string)
      (create_refused : string -> VectorParams -> option exn) (st : Store)
      (name : string) (description : option string) (vector_size : Z)
      (distance : string) :
  find_collection name (collections st) = None ->
  create_refused name
    {| size := vector_size; distance := distance_metric distance |} = None ->
  find_collection name
    (collections (snd (create_collection index_fails now create_refused name
                         description vector_size distance st)))
  = Some (with_schema (accepted index_fails name DEFAULT_PAYLOAD_INDEXES)
            (fresh_collection name
               {| size := vector_size; distance := distance_metric distance |}
               (Some [ ("description", opt_str description);
                       ("created_at", PStr now) ]))).
Proof.
  intros H Ha. rewrite create_collection_run by assumption. simpl.
  apply find_app_last; [exact H|reflexivity].
Qed.

Lemma distance_metric_names (distance : string) :
  In (Distance_name (distance_metric distance)) ["COSINE"; "EUCLID"; "DOT"].
Proof.
  unfold distance_metric.
  destruct (dict_lookup distance distance_map) as [d|] eqn:E.
  - unfold distance_map in E. simpl in E.
    destruct (String.eqb distance "Cosine"); [injection E as <-; simpl; auto|].
    destruct (String.eqb distance "Euclid"); [injection E as <-; simpl; auto|].
    destruct (String.eqb distance "Dot"); [injection E as <-; simpl; auto|].
    discriminate.
  - simpl. auto.
Qed.

(** X1. After a creation under a free name that the store accepted, reading
    the collection back answers 200 with the name, the vector size and the
    description that were supplied and the creation time; the distance it
    reports is the name of the enumeration member the string was mapped to,
    one of COSINE, EUCLID and DOT, and the collection has no points. This
    holds whatever indexes the store refused. *)
Theorem create_then_get
        (index_fails : string -> string -> bool) (now : string)
        (create_refused : string -> VectorParams -> option exn) (st : Store)
        (name : string) (description : option string) (vector_size : Z)
        (distance : string) :
  find_collection name (collections st) = None ->
  create_refused name
    {| size := vector_size; distance := distance_metric distance |} = None ->
  let st' := snd (create_collection index_fails now create_refused name
                    description vector_size distance st) in
  exists stats : CollectionStats.t,
    fst (API.get_collection name st') = Response 200 stats
    /\ CollectionStats.name stats = name
    /\ CollectionStats.vector_size stats = vector_size
    /\ CollectionStats.distance stats = Distance_name (distance_metric distance)
    /\ In (CollectionStats.distance stats) ["COSINE"; "EUCLID"; "DOT"]
    /\ CollectionStats.description stats = description
    /\ CollectionStats.created_at stats = Some now
    /\ CollectionStats.points_count stats = 0.
Proof.
  intros H Ha st'.
  pose proof (created_collection_found index_fails now create_refused st name
                description vector_size distance H Ha) as F.
  fold st' in F.
  pose proof (get_collection_info_found name st' _ F) as I.
  exists {| CollectionStats.name := name;
            CollectionStats.description := description;
            CollectionStats.vector_size := vector_size;
            CollectionStats.distance := Distance_name (distance_metric distance);
            CollectionStats.points_count := 0;
            CollectionStats.indexed_vectors_count := 0;
            CollectionStats.status := "GREEN";
            CollectionStats.created_at := Some now |}.
  split.
  - unfold API.get_collection. erewrite endpoint_ok; [reflexivity|].
    rewrite I. destruct description; reflexivity.
  - repeat split. apply distance_metric_names.
Qed.

Lemma create_then_get_witness :
  find_collection "Curso_102" (collections sample_store) = None /\
  sample_refusal "Curso_102"
    {| size := 384; distance := distance_metric "Euclid" |} = None /\
  exists stats : CollectionStats.t,
    fst (API.get_collection "Curso_102"
           (snd (create_collection (fun _ _ => true) "2026-01-21T08:00:00"
                   sample_refusal "Curso_102" (Some "Otro curso") 384 "Euclid"
                   sample_store)))
    = Response 200 stats
    /\ CollectionStats.vector_size stats = 384
    /\ CollectionStats.distance stats = "EUCLID".
Proof.
  refine (conj eq_refl (conj eq_refl _)).
  destruct (create_then_get (fun _ _ => true) "2026-01-21T08:00:00"
              sample_refusal sample_store "Curso_102" (Some "Otro curso") 384
              "Euclid" eq_refl eq_refl)
    as (stats & E & _ & Hsize & Hdist & _).
  exists stats. split; [exact E|]. split; [exact Hsize|exact Hdist].
Defined.

(** X2. The existence handler answers false for a free name. After a
    creation under it that the store accepted it answers true, and from then
    on every further creation under that name is answered 400 with the
    duplicate-name message; after a creation that the store refused it still
    answers false. *)
Theorem create_then_exists
        (index_fails : string -> string -> bool) (now : string)
        (create_refused : string -> VectorParams -> option exn) (st : Store)
        (name : string) (description : option string) (vector_size : Z)
        (distance : string) :
  find_collection name (collections st) = None ->
  let vp := {| size := vector_size; distance := distance_metric distance |} in
  let st' := snd (create_collection index_fails now create_refused name
                    description vector_size distance st) in
  fst (API.check_collection_exists name st)
  = Response 200 [ ("collection_name", PStr name); ("exists", PBool false) ]
  /\ (create_refused name vp = None ->
      fst (API.check_collection_exists name st')
      = Response 200 [ ("collection_name", PStr name); ("exists", PBool true) ]
      /\ forall (index_fails' : string -> string -> bool) (now' : string)
                (create_refused' : string -> VectorParams -> option exn)
                (request : CollectionCreateRequest),
           req_name request = name ->
           fst (API.create_collection index_fails' now' create_refused'
                  request st')
           = HTTPException 400 (msg_ya_existe name))
  /\ (forall e : exn,
         create_refused name vp = Some e ->
         fst (API.check_collection_exists name st')
         = Response 200 [ ("collection_name", PStr name);
                          ("exists", PBool false) ]).
Proof.
  intros H vp st'.
  assert (X : forall s found,
             match find_collection name (collections s) with
             | Some _ => true
             | None => false
             end = found ->
             fst (API.check_collection_exists name s)
             = Response 200 [ ("collection_name", PStr name);
                              ("exists", PBool found) ]).
  { intros s found <-. unfold API.check_collection_exists, endpoint.
    rewrite (bind_ok _ _ _ _ _ (collection_exists_run name s)). reflexivity. }
  split; [apply X; now rewrite H|]. split.
  - intros Ha.
    pose proof (created_collection_found index_fails now create_refused st name
                  description vector_size distance H Ha) as F.
    fold st' in F. split; [apply X; now rewrite F|].
    intros index_fails' now' create_refused' request <-.
    unfold API.create_collection.
    erewrite endpoint_raise by (eapply create_collection_taken; exact F).
    reflexivity.
  - intros e Hr. apply X. unfold st'.
    rewrite (create_collection_refused index_fails now create_refused st name
               description vector_size distance e H Hr).
    simpl. now rewrite H.
Qed.

Lemma create_then_exists_witness :
  find_collection "Curso_102" (collections sample_store) = None /\
  sample_refusal "Curso_102"
    {| size := 768; distance := distance_metric "Cosine" |} = None /\
  fst (API.check_collection_exists "Curso_102"
         (snd (create_collection (fun _ _ => false) "2026-01-21T08:00:00"
                 sample_refusal "Curso_102" None 768 "Cosine" sample_store)))
  = Response 200 [ ("collection_name", PStr "Curso_102");
                   ("exists", PBool true) ] /\
  sample_refusal "Curso_102"
    {| size := 0; distance := distance_metric "Cosine" |}
  = Some (StoreError "Unexpected Response: 422 (Unprocessable Entity)") /\
  fst (API.check_collection_exists "Curso_102"
         (snd (create_collection (fun _ _ => false) "2026-01-21T08:00:00"
                 sample_refusal "Curso_102" None 0 "Cosine" sample_store)))
  = Response 200 [ ("collection_name", PStr "Curso_102");
                   ("exists", PBool false) ].
Proof.
  refine (conj eq_refl (conj eq_refl (conj _ (conj eq_refl _)))).
  - exact (proj1 (proj1 (proj2 (create_then_exists (fun _ _ => false)
                                  "2026-01-21T08:00:00" sample_refusal
                                  sample_store "Curso_102" None 768 "Cosine"
                                  eq_refl)) eq_refl)).
  - exact (proj2 (proj2 (create_then_exists (fun _ _ => false)
                           "2026-01-21T08:00:00" sample_refusal
                           sample_store "Curso_102" None 0 "Cosine"
                           eq_refl)) _ eq_refl).
Defined.

Lemma accepted_none (index_fails : string -> string -> bool) (name : string)
      (table : list (string * PayloadSchemaType)) :
  (forall field, index_fails name field = true) ->
  accepted index_fails name table = [].
Proof.
  intros Hall. unfold accepted.
  induction table as [|[f s] l IH]; simpl; [reflexivity|].
  rewrite Hall. simpl. exact IH.
Qed.

(** X3. A creation under a free name that the store accepts is answered 201
    whatever indexes the store refuses, even all of them: the refusals are
    swallowed, and the new collection carries exactly the indexes of the
    table that the store accepted, none when it refused them all. A
    creation that the store refuses is answered with the exception of the
    create-collection call, 400 when it is a [ValueError] and 500
    otherwise: no collection is created and no index is asked for. *)
Theorem create_swallows_index_failures
        (index_fails : string -> string -> bool) (now : string)
        (create_refused : string -> VectorParams -> option exn) (st : Store)
        (request : CollectionCreateRequest) :
  find_collection (req_name request) (collections st) = None ->
  let name := req_name request in
  let vp := {| size := req_vector_size request;
               distance := distance_metric (req_distance request) |} in
  let out := API.create_collection index_fails now create_refused request st in
  (create_refused name vp = None ->
   fst out
   = Response 201
       (success name ("Colección '" ++ name ++ "' creada correctamente"))
   /\ exists c : Collection,
        find_collection name (collections (snd out)) = Some c
        /\ col_points c = []
        /\ (forall field schema,
               In (field, schema) (col_payload_schema c)
               <-> In (field, schema) DEFAULT_PAYLOAD_INDEXES
                   /\ index_fails name field = false)
        /\ ((forall field, index_fails name field = true) ->
            col_payload_schema c = []))
  /\
  (forall e : exn,
      create_refused name vp = Some e ->
      (exists detail : string,
          fst out
          = HTTPException (if is_ValueError e then 400 else 500) detail)
      /\ collections (snd out) = collections st
      /\ exists calls : list Call,
           trace (snd out) = (trace st ++ calls)%list
           /\ existsb is_index_call calls = false).
Proof.
  intros H name vp out. split.
  - intros Ha.
    pose proof (create_collection_run index_fails now create_refused st name
                  (req_description request) (req_vector_size request)
                  (req_distance request) H Ha) as R.
    assert (O : out = (Response 201
                         (success name
                            ("Colección '" ++ name ++ "' creada correctamente")),
                       snd (create_collection index_fails now create_refused
                              name (req_description request)
                              (req_vector_size request)
                              (req_distance request) st))).
    { unfold out, API.create_collection. fold name.
      rewrite (endpoint_ok _ _ _ _ _ _ R). now rewrite R. }
    rewrite O. split; [reflexivity|].
    eexists. split.
    + simpl. now apply created_collection_found.
    + cbn [col_payload_schema col_points with_schema fresh_collection].
      split; [reflexivity|]. split.
      * intros field schema. unfold accepted. rewrite filter_In.
        cbn [fst]. rewrite negb_true_iff. reflexivity.
      * intros Hall. now apply accepted_none.
  - intros e Hr.
    pose proof (create_collection_refused index_fails now create_refused st
                  name (req_description request) (req_vector_size request)
                  (req_distance request) e H Hr) as R.
    unfold out, API.create_collection. fold name.
    rewrite (endpoint_raise _ _ _ _ _ _ R).
    split; [eexists; reflexivity|]. split; [reflexivity|].
    eexists. split; reflexivity.
Qed.

Lemma create_swallows_index_failures_witness :
  find_collection "Curso_102" (collections sample_store) = None /\
  sample_refusal "Curso_102"
    {| size := 768; distance := distance_metric "Cosine" |} = None /\
  fst (API.create_collection (fun _ _ => true) "2026-01-21T08:00:00"
         sample_refusal
         {| req_name := "Curso_102"; req_description := None;
            req_vector_size := 768; req_distance := "Cosine" |} sample_store)
  = Response 201
      (success "Curso_102" "Colección 'Curso_102' creada correctamente") /\
  sample_refusal "Curso_102"
    {| size := -3; distance := distance_metric "Cosine" |}
  = Some (StoreError "Unexpected Response: 422 (Unprocessable Entity)") /\
  collections
    (snd (API.create_collection (fun _ _ => true) "2026-01-21T08:00:00"
            sample_refusal
            {| req_name := "Curso_102"; req_description := None;
               req_vector_size := -3; req_distance := "Cosine" |} sample_store))
  = collections sample_store.
Proof.
  refine (conj eq_refl (conj eq_refl (conj _ (conj eq_refl _)))).
  - exact (proj1 (proj1 (create_swallows_index_failures (fun _ _ => true)
                           "2026-01-21T08:00:00" sample_refusal sample_store
                           {| req_name := "Curso_102"; req_description := None;
                              req_vector_size := 768;
                              req_distance := "Cosine" |}
                           eq_refl) eq_refl)).
  - exact (proj1 (proj2 (proj2 (create_swallows_index_failures
                                  (fun _ _ => true) "2026-01-21T08:00:00"
                                  sample_refusal sample_store
                                  {| req_name := "Curso_102";
                                     req_description := None;
                                     req_vector_size := -3;
                                     req_distance := "Cosine" |}
                                  eq_refl) _ eq_refl))).
Defined.

(** ** Deletion and clearing, seen through the handlers *)

(** X4. A collection whose reported point count is zero (or less) is deleted
    without [force]: the handler answers 200 for either value of [force]
    and the collection is gone. *)
Theorem delete_empty_without_force
        (st : Store) (name : string) (force : bool) (c : Collection) (n : Z) :
  find_collection name (collections st) = Some c ->
  col_points_count c = Some n ->
  n <= 0 ->
  API.delete_collection name force st
  = (Response 200
       (success name ("Colección '" ++ name ++ "' eliminada correctamente")),
     stored st (remove_collection name (collections st))
       [GetCollections; GetCollection name; DeleteCollection name])
  /\ find_collection name (remove_collection name (collections st)) = None.
Proof.
  intros H Hc Hn. split; [|apply find_remove].
  unfold API.delete_collection. apply endpoint_ok.
  apply (delete_collection_run st name force c n H Hc).
  apply Z.ltb_ge in Hn. now rewrite Hn.
Qed.

Lemma delete_empty_without_force_witness :
  find_collection "Curso_104" (collections two_collections)
  = Some indexed_collection /\
  col_points_count indexed_collection = Some 0 /\
  0 <= 0 /\
  fst (API.delete_collection "Curso_104" false two_collections)
  = Response 200
      (success "Curso_104" "Colección 'Curso_104' eliminada correctamente").
Proof.
  assert (Hz : 0 <= 0) by lia.
  refine (conj eq_refl (conj eq_refl (conj Hz _))).
  destruct (delete_empty_without_force two_collections "Curso_104" false
              indexed_collection 0 eq_refl eq_refl Hz) as [E _].
  rewrite E. reflexivity.
Defined.

(** X5. For a name that no collection has, reading the collection, listing
    its documents and deleting one of its documents are answered 404, and
    deleting the collection is answered 400, each with the not-found
    message; the store was only asked for the list of collections. *)
Theorem missing_collection_answers
        (fuel : nat) (st : Store) (name filename : string) (force : bool) :
  find_collection name (collections st) = None ->
  API.get_collection name st
  = (HTTPException 404 (msg_no_existe name), logged st [GetCollections])
  /\ API.list_documents fuel name st
     = (HTTPException 404 (msg_no_existe name), logged st [GetCollections])
  /\ API.delete_document name filename st
     = (HTTPException 404 (msg_no_existe name), logged st [GetCollections])
  /\ API.delete_collection name force st
     = (HTTPException 400 (msg_no_existe name), logged st [GetCollections]).
Proof.
  intros H. repeat split.
  - unfold API.get_collection.
    now rewrite (endpoint_raise _ _ _ _ _ _ (get_collection_info_missing name st H)).
  - unfold API.list_documents.
    erewrite endpoint_raise
      by (unfold list_documents_in_collection; apply missing_raises; exact H).
    reflexivity.
  - unfold API.delete_document.
    erewrite endpoint_raise
      by (unfold delete_document_by_filename; apply missing_raises; exact H).
    reflexivity.
  - unfold API.delete_collection.
    erewrite endpoint_raise
      by (unfold delete_collection; apply missing_raises; exact H).
    reflexivity.
Qed.

Lemma missing_collection_answers_witness :
  find_collection "Curso_102" (collections sample_store) = None /\
  API.delete_collection "Curso_102" true sample_store
  = (HTTPException 400 "La colección 'Curso_102' no existe",
     logged sample_store [GetCollections]).
Proof.
  refine (conj eq_refl _).
  exact (proj2 (proj2 (proj2 (missing_collection_answers 1 sample_store
                                "Curso_102" "a.pdf" true eq_refl)))).
Defined.

(** X6. A deletion that goes through frees the name: afterwards the
    existence handler answers false, reading the collection is answered
    404, and a creation under the same name that the store accepts is
    answered 201. *)
Theorem delete_frees_name
        (index_fails : string -> string -> bool) (now : string)
        (create_refused : string -> VectorParams -> option exn)
        (st : Store) (name : string) (force : bool) (c : Collection) (n : Z)
        (request : CollectionCreateRequest) :
  find_collection name (collections st) = Some c ->
  col_points_count c = Some n ->
  n <= 0 \/ force = true ->
  req_name request = name ->
  let st' := snd (delete_collection name force st) in
  fst (API.check_collection_exists name st')
  = Response 200 [ ("collection_name", PStr name); ("exists", PBool false) ]
  /\ fst (API.get_collection name st') = HTTPException 404 (msg_no_existe name)
  /\ (create_refused name
        {| size := req_vector_size request;
           distance := distance_metric (req_distance request) |} = None ->
      fst (API.create_collection index_fails now create_refused request st')
      = Response 201
          (success name ("Colección '" ++ name ++ "' creada correctamente"))).
Proof.
  intros H Hc Hg <- st'.
  assert (G : (0 <? n) && negb force = false).
  { destruct Hg as [Hn| ->].
    - apply Z.ltb_ge in Hn. now rewrite Hn.
    - apply andb_false_r. }
  assert (F : find_collection (req_name request) (collections st') = None).
  { unfold st'.
    rewrite (delete_collection_run st (req_name request) force c n H Hc G).
    simpl. apply find_remove. }
  split; [|split].
  - unfold API.check_collection_exists, endpoint.
    rewrite (bind_ok _ _ _ _ _ (collection_exists_run (req_name request) st')).
    now rewrite F.
  - unfold API.get_collection.
    now rewrite (endpoint_raise _ _ _ _ _ _
                   (get_collection_info_missing (req_name request) st' F)).
  - intros Ha. unfold API.create_collection.
    pose proof (create_collection_run index_fails now create_refused st'
                  (req_name request) (req_description request)
                  (req_vector_size request) (req_distance request) F Ha) as R.
    cbv zeta in R. now rewrite (endpoint_ok _ _ _ _ _ _ R).
Qed.

Lemma delete_frees_name_witness :
  find_collection "Curso_101" (collections sample_store) = Some sample_collection /\
  col_points_count sample_collection = Some 5 /\
  (5 <= 0 \/ true = true) /\
  fst (API.get_collection "Curso_101"
         (snd (delete_collection "Curso_101" true sample_store)))
  = HTTPException 404 "La colección 'Curso_101' no existe" /\
  sample_refusal "Curso_101"
    {| size := 768; distance := distance_metric "Cosine" |} = None /\
  fst (API.create_collection (fun _ _ => false) "2026-01-21T08:00:00"
         sample_refusal
         {| req_name := "Curso_101"; req_description := None;
            req_vector_size := 768; req_distance := "Cosine" |}
         (snd (delete_collection "Curso_101" true sample_store)))
  = Response 201
      (success "Curso_101" "Colección 'Curso_101' creada correctamente").
Proof.
  assert (Hg : 5 <= 0 \/ true = true) by (right; reflexivity).
  destruct (delete_frees_name (fun _ _ => false) "2026-01-21T08:00:00"
              sample_refusal sample_store "Curso_101" true sample_collection 5
              {| req_name := "Curso_101"; req_description := None;
                 req_vector_size := 768; req_distance := "Cosine" |}
              eq_refl eq_refl Hg eq_refl) as (_ & Hget & Hcreate).
  exact (conj eq_refl (conj eq_refl (conj Hg (conj Hget
           (conj eq_refl (Hcreate eq_refl)))))).
Defined.

(** X7. Clearing a collection asks for no payload index: the calls it issues
    are a listing, a read, a deletion and a creation, and, when the store
    accepts back the configuration it held, the collection it leaves has no
    index and no point, whatever indexes it had before. When the store
    refuses that creation, the collection is gone. *)
Theorem clear_drops_indexes
        (create_refused : string -> VectorParams -> option exn)
        (st : Store) (name : string) (c : Collection) :
  find_collection name (collections st) = Some c ->
  let st' := snd (clear_collection create_refused name st) in
  (exists calls : list Call,
      trace st' = (trace st ++ calls)%list
      /\ existsb is_index_call calls = false)
  /\ trace st'
     = (trace st
          ++ [ GetCollections; GetCollection name; DeleteCollection name;
               CreateCollection name (col_vectors c) (col_metadata c) ])%list
  /\ (create_refused name (col_vectors c) = None ->
      exists c' : Collection,
        find_collection name (collections st') = Some c'
        /\ col_payload_schema c' = []
        /\ col_points c' = [])
  /\ (forall e : exn,
         create_refused name (col_vectors c) = Some e ->
         find_collection name (collections st') = None).
Proof.
  intros H st'.
  assert (T : trace st'
              = (trace st
                   ++ [ GetCollections; GetCollection name; DeleteCollection name;
                        CreateCollection name (col_vectors c)
                          (col_metadata c) ])%list).
  { unfold st'.
    destruct (create_refused name (col_vectors c)) as [e|] eqn:R.
    - now rewrite (clear_collection_refused create_refused st name c e H R).
    - now rewrite (clear_collection_run create_refused st name c H R). }
  split; [|split; [exact T|split]].
  - eexists. split; [exact T|reflexivity].
  - intros Ha. unfold st'.
    rewrite (clear_collection_run create_refused st name c H Ha).
    eexists. split.
    + simpl. apply find_app_last; [apply find_remove|reflexivity].
    + split; reflexivity.
  - intros e Hr. unfold st'.
    rewrite (clear_collection_refused create_refused st name c e H Hr).
    simpl. apply find_remove.
Qed.

Lemma clear_drops_indexes_witness :
  find_collection "Curso_104" (collections two_collections)
  = Some indexed_collection /\
  col_payload_schema indexed_collection
  = [ ("filename", KEYWORD); ("chunk", INTEGER) ] /\
  sample_refusal "Curso_104" (col_vectors indexed_collection) = None /\
  exists c' : Collection,
    find_collection "Curso_104"
      (collections (snd (clear_collection sample_refusal "Curso_104"
                           two_collections)))
    = Some c'
    /\ col_payload_schema c' = []
    /\ col_points c' = [].
Proof.
  refine (conj eq_refl (conj eq_refl (conj eq_refl _))).
  exact (proj1 (proj2 (proj2 (clear_drops_indexes sample_refusal two_collections
                                "Curso_104" indexed_collection eq_refl)))
           eq_refl).
Defined.

(** ** What an operation on one collection leaves alone *)

Lemma with_metadata_name (m : option pydict) (c : Collection) :
  col_name (with_metadata m c) = col_name c.
Proof. reflexivity. Qed.

(** X8. Creating, updating, deleting or clearing a collection never touches
    a collection of another name: whatever the parameters and whatever the
    outcome, every other collection is found afterwards exactly as it was. *)
Theorem other_collections_untouched
        (index_fails : string -> string -> bool)
        (merge_metadata : option pydict -> pydict -> option pydict)
        (now : string)
        (create_refused : string -> VectorParams -> option exn)
        (st : Store) (name other : string)
        (description : option string) (vector_size : Z) (distance : string)
        (force : bool) :
  other <> name ->
  find_collection other
    (collections (snd (create_collection index_fails now create_refused name
                         description vector_size distance st)))
  = find_collection other (collections st)
  /\ find_collection other
       (collections (snd (update_collection merge_metadata now name
                            description st)))
     = find_collection other (collections st)
  /\ find_collection other
       (collections (snd (delete_collection name force st)))
     = find_collection other (collections st)
  /\ find_collection other
       (collections (snd (clear_collection create_refused name st)))
     = find_collection other (collections st).
Proof.
  intros N.
  assert (E : String.eqb other name = false) by now apply String.eqb_neq.
  destruct (find_collection name (collections st)) as [c|] eqn:H.
  - repeat split.
    + now rewrite (create_collection_taken index_fails now create_refused st
                     name description vector_size distance c H).
    + rewrite (update_collection_run merge_metadata now st name description c H).
      simpl. apply find_modify_other; [exact N|apply with_metadata_name].
    + destruct (col_points_count c) as [n|] eqn:Hc.
      * destruct ((0 <? n) && negb force) eqn:G.
        -- apply andb_true_iff in G as [Gn Gf].
           apply negb_true_iff in Gf. subst force.
           now rewrite (delete_collection_refused st name c n H Hc Gn).
        -- rewrite (delete_collection_run st name force c n H Hc G).
           simpl. now apply find_remove_other.
      * destruct (delete_collection_uncounted st name force c H Hc) as [e ->].
        reflexivity.
    + destruct (create_refused name (col_vectors c)) as [e|] eqn:R.
      * rewrite (clear_collection_refused create_refused st name c e H R).
        simpl. now apply find_remove_other.
      * rewrite (clear_collection_run create_refused st name c H R). simpl.
        rewrite find_app. simpl. rewrite E.
        rewrite find_remove_other by exact N.
        now destruct (find_collection other (collections st)).
  - repeat split.
    + destruct (create_refused name
                  {| size := vector_size;
                     distance := distance_metric distance |}) as [e|] eqn:R.
      * now rewrite (create_collection_refused index_fails now create_refused
                       st name description vector_size distance e H R).
      * rewrite (create_collection_run index_fails now create_refused st name
                   description vector_size distance H R). simpl.
        rewrite find_app. simpl. rewrite E.
        now destruct (find_collection other (collections st)).
    + unfold update_collection. now rewrite missing_raises.
    + unfold delete_collection. now rewrite missing_raises.
    + unfold clear_collection. now rewrite missing_raises.
Qed.

Lemma other_collections_untouched_witness :
  "Curso_104" <> "Curso_101" /\
  find_collection "Curso_104"
    (collections (snd (clear_collection sample_refusal "Curso_101"
                         two_collections)))
  = Some indexed_collection /\
  find_collection "Curso_104"
    (collections (snd (delete_collection "Curso_101" true two_collections)))
  = Some indexed_collection.
Proof.
  assert (N : "Curso_104" <> "Curso_101") by discriminate.
  destruct (other_collections_untouched (fun _ _ => false) replace_metadata
              "2026-01-21T08:00:00" sample_refusal two_collections
              "Curso_101" "Curso_104" None 768 "Cosine" true N)
    as (_ & _ & Hd & Hc).
  exact (conj N (conj Hc Hd)).
Defined.

(** ** Update, then read *)

Lemma dict_lookup_set (k k' : string) (v : pyval) (d : pydict) :
  dict_lookup k (dict_set k' v d)
  = if String.eqb k k' then Some v else dict_lookup k d.
Proof.
  induction d as [|[k0 v0] d IH]; simpl; [reflexivity|].
  destruct (String.eqb k' k0) eqn:E0; simpl.
  - apply String.eqb_eq in E0. subst k0.
    now destruct (String.eqb k k').
  - rewrite IH. destruct (String.eqb k k0) eqn:E1; [|reflexivity].
    apply String.eqb_eq in E1. subst k0.
    now rewrite String.eqb_sym, E0.
Qed.

Lemma optional_str_opt_str (s : option string) :
  optional_str (opt_str s) = Some s.
Proof. now destruct s. Qed.

(** What reading a collection answers, from the two fields of its metadata
    when they pass the validation. *)
Lemma get_collection_valid (name : string) (st : Store) (c : Collection)
      (description created_at : option string) :
  find_collection name (collections st) = Some c ->
  optional_str (dict_get (or_empty (col_metadata c)) "description")
  = Some description ->
  optional_str (dict_get (or_empty (col_metadata c)) "created_at")
  = Some created_at ->
  fst (API.get_collection name st)
  = Response 200
      {| CollectionStats.name := name;
         CollectionStats.description := description;
         CollectionStats.vector_size := size (col_vectors c);
         CollectionStats.distance := Distance_name (distance (col_vectors c));
         CollectionStats.points_count := or_zero (col_points_count c);
         CollectionStats.indexed_vectors_count :=
           or_zero (col_indexed_vectors_count c);
         CollectionStats.status := CollectionStatus_name (col_status c);
         CollectionStats.created_at := created_at |}.
Proof.
  intros H Hd Hc. unfold API.get_collection.
  erewrite endpoint_ok; [reflexivity|].
  rewrite (get_collection_info_found name st c H).
  unfold stats_of, info_of.
  cbn [config metadata params vectors points_count indexed_vectors_count status].
  now rewrite Hd, Hc.
Qed.

(** X9. After an update of an existing collection, reading it back answers
    200 with the new description and with the vector size, distance and
    point count it had, in two cases that depend on the store. When the
    store replaces the metadata by what the update sent, [created_at] reads
    as null. When the store merges key by key and the creation time it holds
    is a string or null, [created_at] is what it was. *)
Theorem update_then_get
        (now : string) (st : Store) (name : string)
        (description : option string) (c : Collection) :
  find_collection name (collections st) = Some c ->
  (exists stats : CollectionStats.t,
      fst (API.get_collection name
             (snd (update_collection replace_metadata now name description st)))
      = Response 200 stats
      /\ CollectionStats.description stats = description
      /\ CollectionStats.created_at stats = None
      /\ CollectionStats.vector_size stats = size (col_vectors c)
      /\ CollectionStats.distance stats = Distance_name (distance (col_vectors c))
      /\ CollectionStats.points_count stats = or_zero (col_points_count c))
  /\
  (forall created_at : option string,
      optional_str (dict_get (or_empty (col_metadata c)) "created_at")
      = Some created_at ->
      exists stats : CollectionStats.t,
        fst (API.get_collection name
               (snd (update_collection merge_by_key now name description st)))
        = Response 200 stats
        /\ CollectionStats.description stats = description
        /\ CollectionStats.created_at stats = created_at
        /\ CollectionStats.vector_size stats = size (col_vectors c)
        /\ CollectionStats.distance stats
           = Distance_name (distance (col_vectors c))
        /\ CollectionStats.points_count stats = or_zero (col_points_count c)).
Proof.
  intros H.
  assert (F : forall merge,
             find_collection name
               (collections (snd (update_collection merge now name
                                    description st)))
             = Some (with_metadata
                       (merge (col_metadata c)
                          [ ("description", opt_str description);
                            ("updated_at", PStr now) ]) c)).
  { intros merge.
    rewrite (update_collection_run merge now st name description c H). simpl.
    apply find_modify_same; [exact H|apply with_metadata_name]. }
  split.
  - eexists. split.
    + apply (get_collection_valid name _ _ description None (F replace_metadata)).
      * simpl. apply optional_str_opt_str.
      * reflexivity.
    + repeat split.
  - intros created_at Hc. eexists. split.
    + apply (get_collection_valid name _ _ description created_at
               (F merge_by_key)).
      * unfold merge_by_key, dict_merge, dict_get.
        cbn [with_metadata col_metadata or_empty fold_left fst snd].
        rewrite !dict_lookup_set. simpl. apply optional_str_opt_str.
      * unfold merge_by_key, dict_merge, dict_get.
        cbn [with_metadata col_metadata or_empty fold_left fst snd].
        rewrite !dict_lookup_set. simpl. exact Hc.
    + repeat split.
Qed.

Lemma update_then_get_witness :
  find_collection "Curso_101" (collections sample_store) = Some sample_collection /\
  (exists stats : CollectionStats.t,
      fst (API.get_collection "Curso_101"
             (snd (update_collection replace_metadata "2026-01-21T08:00:00"
                     "Curso_101" (Some "nueva") sample_store)))
      = Response 200 stats
      /\ CollectionStats.created_at stats = None) /\
  optional_str (dict_get (or_empty (col_metadata sample_collection)) "created_at")
  = Some (Some "2026-01-20T13:00:00") /\
  (exists stats : CollectionStats.t,
      fst (API.get_collection "Curso_101"
             (snd (update_collection merge_by_key "2026-01-21T08:00:00"
                     "Curso_101" (Some "nueva") sample_store)))
      = Response 200 stats
      /\ CollectionStats.created_at stats = Some "2026-01-20T13:00:00").
Proof.
  destruct (update_then_get "2026-01-21T08:00:00" sample_store "Curso_101"
              (Some "nueva") sample_collection eq_refl) as [Hr Hm].
  destruct Hr as (s1 & E1 & _ & C1 & _).
  destruct (Hm (Some "2026-01-20T13:00:00") eq_refl) as (s2 & E2 & _ & C2 & _).
  refine (conj eq_refl (conj _ (conj eq_refl _))).
  - exists s1. split; [exact E1|exact C1].
  - exists s2. split; [exact E2|exact C2].
Defined.

(** ** Listing the collections *)

Lemma list_collections_loop_run (l : list Collection) :
  forall (acc : list CollectionStats.t) (st : Store),
    (forall c, In c l -> find_collection (col_name c) (collections st) = Some c) ->
    (forall c, In c l -> metadata_validates (col_metadata c) = true) ->
    exists entries : list CollectionStats.t,
      Forall2 (fun c stats => stats_of (col_name c) (info_of c) = Ok stats)
              l entries
      /\ list_collections_loop (map col_name l) acc st
         = (Ok (acc ++ entries)%list,
            logged st (map (fun c => GetCollection (col_name c)) l)).
Proof.
  induction l as [|c l IH]; intros acc st Hfind Hvalid; simpl.
  - exists []. split; [constructor|].
    unfold ret, logged. rewrite !app_nil_r. now destruct st.
  - destruct (stats_of_valid (col_name c) c (Hvalid c (or_introl eq_refl)))
      as (stats & S & _).
    destruct (IH (acc ++ [stats])%list
                 (logged st [GetCollection (col_name c)]))
      as (entries & F & E).
    + intros c' Hc'. simpl. apply Hfind. now right.
    + intros c' Hc'. apply Hvalid. now right.
    + exists (stats :: entries). split; [constructor; assumption|].
      rewrite (bind_ok _ _ _ _ _
                 (client_get_collection_run (col_name c) st c
                    (Hfind c (or_introl eq_refl)))).
      unfold bind at 1, lift. rewrite S, E.
      rewrite logged_logged, <- app_assoc. reflexivity.
Qed.

(** The listing stops at the first collection whose metadata fails the
    validation. *)
Lemma list_collections_loop_invalid (l : list Collection) :
  forall (acc : list CollectionStats.t) (st : Store),
    (forall c, In c l -> find_collection (col_name c) (collections st) = Some c) ->
    (exists c, In c l /\ metadata_validates (col_metadata c) = false) ->
    exists (fields : list string) (st' : Store),
      list_collections_loop (map col_name l) acc st
      = (Raise (ValidationError "CollectionStats" fields), st').
Proof.
  induction l as [|c l IH]; intros acc st Hfind (bad & Hin & Hbad);
    [destruct Hin|]. simpl.
  rewrite (bind_ok _ _ _ _ _
             (client_get_collection_run (col_name c) st c
                (Hfind c (or_introl eq_refl)))).
  destruct (metadata_validates (col_metadata c)) eqn:V.
  - destruct (stats_of_valid (col_name c) c V) as (stats & S & _).
    unfold bind at 1, lift. rewrite S.
    apply IH.
    + intros c' Hc'. simpl. apply Hfind. now right.
    + exists bad. split; [|exact Hbad].
      destruct Hin as [->|Hin]; [congruence|exact Hin].
  - destruct (stats_of_invalid (col_name c) c V) as (fields & S).
    unfold bind, lift. rewrite S. eexists; eexists. reflexivity.
Qed.

Lemma find_by_unique_name (cs : list Collection) :
  NoDup (map col_name cs) ->
  forall c, In c cs -> find_collection (col_name c) cs = Some c.
Proof.
  induction cs as [|c0 cs IH]; intros ND c Hc; simpl in *; [contradiction|].
  inversion ND as [|? ? Hnot ND']; subst.
  destruct Hc as [->|Hc].
  - now rewrite String.eqb_refl.
  - destruct (String.eqb (col_name c) (col_name c0)) eqn:E.
    + apply String.eqb_eq in E. exfalso. apply Hnot. rewrite <- E.
      now apply in_map.
    + now apply IH.
Qed.

Lemma Forall2_in_impl {A B} (R R' : A -> B -> Prop) (l : list A)
      (l' : list B) :
  Forall2 R l l' ->
  (forall a b, In a l -> R a b -> R' a b) ->
  Forall2 R' l l'.
Proof.
  induction 1 as [|a b l l' Hab F IH]; intros Himp; constructor.
  - apply Himp; [now left|exact Hab].
  - apply IH. intros a' b' Hin. apply Himp. now right.
Qed.

Lemma list_collections_unfold (st : Store) :
  list_collections st
  = list_collections_loop (map col_name (collections st)) []
      (logged st [GetCollections]).
Proof.
  unfold list_collections, client_get_collections.
  unfold bind at 1. unfold bind at 1. unfold bind at 1.
  reflexivity.
Qed.

(** X10. On a store whose collection names are unique: when the metadata of
    every collection passes the validation of [CollectionStats], the listing
    handler answers 200 with one entry per collection, in the order of the
    store, after one read per collection, and each entry is exactly what
    reading that collection by name answers; when the metadata of some
    collection fails the validation, the whole listing is answered 500. *)
Theorem list_collections_agrees_with_get (st : Store) :
  NoDup (map col_name (collections st)) ->
  ((forall c, In c (collections st) ->
              metadata_validates (col_metadata c) = true) ->
   exists entries : list CollectionStats.t,
     API.list_collections st
     = (Response 200 entries,
        logged st
          (GetCollections
             :: map (fun c => GetCollection (col_name c)) (collections st)))
     /\ Forall2 (fun c stats =>
                   fst (API.get_collection (col_name c) st) = Response 200 stats
                   /\ CollectionStats.name stats = col_name c)
                (collections st) entries)
  /\
  ((exists c, In c (collections st)
              /\ metadata_validates (col_metadata c) = false) ->
   exists detail : string,
     fst (API.list_collections st) = HTTPException 500 detail).
Proof.
  intros ND. split.
  - intros Hvalid.
    destruct (list_collections_loop_run (collections st) []
                (logged st [GetCollections]))
      as (entries & F & E).
    + intros c Hc. simpl. now apply find_by_unique_name.
    + exact Hvalid.
    + exists entries. split.
      * unfold API.list_collections. apply endpoint_ok.
        rewrite list_collections_unfold, E.
        rewrite logged_logged. reflexivity.
      * apply (Forall2_in_impl _ _ _ _ F). intros c stats Hc S.
        destruct (stats_of_valid (col_name c) c (Hvalid c Hc))
          as (stats' & S' & Hname & _).
        assert (stats' = stats) by congruence. subst stats'.
        split; [|exact Hname].
        unfold API.get_collection. erewrite endpoint_ok; [reflexivity|].
        rewrite (get_collection_info_found (col_name c) st c
                   (find_by_unique_name _ ND c Hc)).
        now rewrite S.
  - intros Hbad.
    destruct (list_collections_loop_invalid (collections st) []
                (logged st [GetCollections]))
      as (fields & st' & E).
    + intros c Hc. simpl. now apply find_by_unique_name.
    + exact Hbad.
    + eexists. unfold API.list_collections.
      erewrite endpoint_raise by (rewrite list_collections_unfold; exact E).
      reflexivity.
Qed.

Lemma list_collections_agrees_with_get_witness :
  NoDup (map col_name (collections two_collections)) /\
  (forall c, In c (collections two_collections) ->
             metadata_validates (col_metadata c) = true) /\
  (exists a b : CollectionStats.t,
      fst (API.list_collections two_collections) = Response 200 [a; b]
      /\ CollectionStats.name a = "Curso_101"
      /\ CollectionStats.name b = "Curso_104") /\
  NoDup (map col_name (collections numbered_store)) /\
  (exists c, In c (collections numbered_store)
             /\ metadata_validates (col_metadata c) = false) /\
  exists detail : string,
    fst (API.list_collections numbered_store) = HTTPException 500 detail.
Proof.
  assert (ND : NoDup (map col_name (collections two_collections))).
  { simpl. constructor.
    - intros [E|[]]. discriminate E.
    - constructor; [intros []|constructor]. }
  assert (V : forall c, In c (collections two_collections) ->
                        metadata_validates (col_metadata c) = true).
  { intros c [<-|[<-|[]]]; reflexivity. }
  assert (ND' : NoDup (map col_name (collections numbered_store))).
  { simpl. constructor; [intros []|constructor]. }
  assert (B : exists c, In c (collections numbered_store)
                        /\ metadata_validates (col_metadata c) = false).
  { exists numbered_collection. split; [now left|reflexivity]. }
  refine (conj ND (conj V (conj _ (conj ND' (conj B _))))).
  - destruct (proj1 (list_collections_agrees_with_get two_collections ND) V)
      as (entries & E & F).
    inversion F as [|? a ? rest [_ Ha] F1]; subst.
    inversion F1 as [|? b ? rest' [_ Hb] F2]; subst.
    inversion F2; subst.
    exists a, b. rewrite E. auto.
  - exact (proj2 (list_collections_agrees_with_get numbered_store ND') B).
Defined.

(** ** Reads change nothing *)

Lemma read_only_bind {A B} (m : M A) (k : A -> M B) :
  read_only m -> (forall a, read_only (k a)) -> read_only (bind m k).
Proof.
  intros Hm Hk st. unfold bind. specialize (Hm st).
  destruct (m st) as [[a|e|] st1]; simpl in *; [|exact Hm|exact Hm].
  now rewrite Hk.
Qed.

Lemma read_only_ret {A} (a : A) : read_only (ret a).
Proof. intros st. reflexivity. Qed.

Lemma read_only_raise {A} (e : exn) : read_only (@raise A e).
Proof. intros st. reflexivity. Qed.

Lemma read_only_lift {A} (r : result A) : read_only (lift r).
Proof. intros st. reflexivity. Qed.

Lemma read_only_log (c : Call) : read_only (log c).
Proof. intros st. reflexivity. Qed.

Lemma read_only_get_cols : read_only get_cols.
Proof. intros st. reflexivity. Qed.

Lemma read_only_client_get_collections : read_only client_get_collections.
Proof.
  unfold client_get_collections.
  apply read_only_bind; [apply read_only_log|intros _].
  apply read_only_bind; [apply read_only_get_cols|intros cs].
  apply read_only_ret.
Qed.

Lemma read_only_client_get_collection (name : string) :
  read_only (client_get_collection name).
Proof.
  unfold client_get_collection.
  apply read_only_bind; [apply read_only_log|intros _].
  apply read_only_bind; [apply read_only_get_cols|intros cs].
  destruct (find_collection name cs);
    [apply read_only_ret|apply read_only_raise].
Qed.

Lemma read_only_client_scroll (name : string) (f : option Filter) (limit : Z)
      (offset : option nat) (with_payload : bool) :
  read_only (client_scroll name f limit offset with_payload).
Proof.
  unfold client_scroll.
  apply read_only_bind; [apply read_only_log|intros _].
  apply read_only_bind; [apply read_only_get_cols|intros cs].
  destruct (find_collection name cs);
    [apply read_only_ret|apply read_only_raise].
Qed.

Lemma read_only_collection_exists (name : string) :
  read_only (collection_exists name).
Proof.
  unfold collection_exists.
  apply read_only_bind; [apply read_only_client_get_collections|intros names].
  apply read_only_ret.
Qed.

Lemma read_only_guarded {A} (name : string) (k : M A) :
  read_only k ->
  read_only (exists_ <- collection_exists name ;;
             if negb exists_ then raise (ValueError (msg_no_existe name)) else k).
Proof.
  intros Hk.
  apply read_only_bind; [apply read_only_collection_exists|intros b].
  destruct b; simpl; [exact Hk|apply read_only_raise].
Qed.

Lemma read_only_scroll_all (fuel : nat) (name : string) :
  forall (acc : list Point) (offset : option nat),
    read_only (scroll_all fuel name acc offset).
Proof.
  induction fuel as [|fuel IH]; intros acc offset; simpl.
  - intros st. reflexivity.
  - apply read_only_bind; [apply read_only_client_scroll|intros page].
    destruct (snd page); [apply IH|apply read_only_ret].
Qed.

Lemma read_only_list_collections_loop (names : list string) :
  forall acc, read_only (list_collections_loop names acc).
Proof.
  induction names as [|n names IH]; intros acc; simpl.
  - apply read_only_ret.
  - apply read_only_bind; [apply read_only_client_get_collection|intros info].
    apply read_only_bind; [apply read_only_lift|intros stats].
    apply IH.
Qed.

Lemma read_only_get_collection_info (name : string) :
  read_only (get_collection_info name).
Proof.
  unfold get_collection_info. apply read_only_guarded.
  apply read_only_bind; [apply read_only_client_get_collection|intros info].
  apply read_only_lift.
Qed.

Lemma endpoint_collections {A} (ok code : Z) (m : M A) (st : Store) :
  collections (snd (endpoint ok code m st)) = collections (snd (m st)).
Proof. unfold endpoint. now destruct (m st) as [[a|e|] st1]. Qed.

(** X11. The read paths never change a collection: the existence check,
    reading one collection, listing the collections, listing the documents
    of a collection (whatever the fuel and the outcome) and the statistics
    handler leave every collection of the store as it was. *)
Theorem reads_change_nothing
        (create_refused : string -> VectorParams -> option exn)
        (fuel : nat) (name : string) :
  read_only (collection_exists name)
  /\ read_only (get_collection_info name)
  /\ read_only list_collections
  /\ read_only (list_documents_in_collection fuel name)
  /\ forall st,
       collections (snd (API.get_collection_stats create_refused fuel name st))
       = collections st.
Proof.
  split; [apply read_only_collection_exists|].
  split; [apply read_only_get_collection_info|].
  split; [|split].
  - unfold list_collections.
    apply read_only_bind; [apply read_only_client_get_collections|intros names].
    apply read_only_list_collections_loop.
  - unfold list_documents_in_collection. apply read_only_guarded.
    apply read_only_bind; [apply read_only_scroll_all|intros all_points].
    apply read_only_bind; [intros st; reflexivity|intros docs].
    apply read_only_ret.
  - intros st. unfold API.get_collection_stats. rewrite endpoint_collections.
    apply read_only_bind; [apply read_only_get_collection_info|intros info].
    intros st1. reflexivity.
Qed.

(** X12. Deleting a document never removes a point: for every store,
    collection name and filename the handler leaves every collection as it
    was, and its answer is an error, 404 when the collection is missing and
    500 otherwise. *)
Theorem delete_document_deletes_nothing
        (st : Store) (collection_name filename : string) :
  let out := API.delete_document collection_name filename st in
  collections (snd out) = collections st
  /\ exists detail : string,
       fst out
       = HTTPException
           (match find_collection collection_name (collections st) with
            | Some _ => 500
            | None => 404
            end) detail.
Proof.
  intros out. unfold out, API.delete_document.
  destruct (find_collection collection_name (collections st)) as [c|] eqn:H.
  - assert (E : delete_document_by_filename collection_name filename st
                = (Raise (NameError "Filter"), logged st [GetCollections])).
    { unfold delete_document_by_filename.
      rewrite (present_continues _ _ _ c H). reflexivity. }
    rewrite (endpoint_raise _ _ _ _ _ _ E). split; [reflexivity|].
    eexists. reflexivity.
  - assert (E : delete_document_by_filename collection_name filename st
                = (Raise (ValueError (msg_no_existe collection_name)),
                   logged st [GetCollections])).
    { unfold delete_document_by_filename. now apply missing_raises. }
    rewrite (endpoint_raise _ _ _ _ _ _ E). split; [reflexivity|].
    eexists. reflexivity.
Qed.

(** ** More on the listing of documents *)

Lemma scroll_all_single_page (fuel : nat) (st : Store) (name : string)
      (c : Collection) (acc : list Point) :
  find_collection name (collections st) = Some c ->
  (List.length (col_points c) <= 100)%nat ->
  scroll_all (S fuel) name acc None st
  = (Ok (acc ++ col_points c)%list,
     logged st [Scroll name None 100 None true]).
Proof.
  intros H Hlen. cbn [scroll_all].
  rewrite (bind_ok _ _ _ _ _
             (client_scroll_run name None 100 None true st c H)).
  rewrite scroll_page_all. cbn [or_start skipn fst snd].
  destruct (Nat.ltb 100 (List.length (col_points c))) eqn:E.
  - apply Nat.ltb_lt in E. lia.
  - unfold ret. now rewrite firstn_all2 by exact Hlen.
Qed.

(** X13. The listing of a collection without points is answered 200 with no
    document and zero totals, after a single scroll of the first page. *)
Theorem list_documents_of_empty_collection
        (fuel : nat) (st : Store) (name : string) (c : Collection) :
  find_collection name (collections st) = Some c ->
  col_points c = [] ->
  fuel <> O ->
  API.list_documents fuel name st
  = (Response 200
       {| collection_name := name;
          total_documents := 0;
          total_points := 0;
          documents := [] |},
     logged st [GetCollections; Scroll name None 100 None true]).
Proof.
  intros H Hp Hf. destruct fuel as [|fuel]; [contradiction|].
  unfold API.list_documents. apply endpoint_ok.
  unfold list_documents_in_collection.
  rewrite (present_continues _ _ _ c H).
  erewrite bind_ok
    by (apply scroll_all_single_page; [exact H|rewrite Hp; simpl; lia]).
  rewrite Hp. unfold bind, lift, ret. simpl. now rewrite logged_logged.
Qed.

Lemma list_documents_of_empty_collection_witness :
  find_collection "Curso_104" (collections two_collections)
  = Some indexed_collection /\
  col_points indexed_collection = [] /\
  1%nat <> O /\
  fst (API.list_documents 1 "Curso_104" two_collections)
  = Response 200
      {| collection_name := "Curso_104";
         total_documents := 0;
         total_points := 0;
         documents := [] |}.
Proof.
  assert (Hf : 1%nat <> O) by discriminate.
  refine (conj eq_refl (conj eq_refl (conj Hf _))).
  rewrite (list_documents_of_empty_collection 1 two_collections "Curso_104"
             indexed_collection eq_refl eq_refl Hf).
  reflexivity.
Defined.

Lemma list_documents_inversion (fuel : nat) (name : string) (st st' : Store)
      (r : DocumentListing) :
  list_documents_in_collection fuel name st = (Ok r, st') ->
  exists (all_points : list Point) (docs : documents_dict),
    group_points all_points [] = Ok docs
    /\ r = {| collection_name := name;
              total_documents := Z.of_nat (List.length docs);
              total_points := Z.of_nat (List.length all_points);
              documents := map snd docs |}.
Proof.
  unfold list_documents_in_collection, bind at 1.
  rewrite collection_exists_run.
  destruct (find_collection name (collections st)); simpl;
    [|discriminate].
  unfold bind at 1.
  destruct (scroll_all fuel name [] None (logged st [GetCollections]))
    as [[all_points|e|] st1]; [|discriminate|discriminate].
  unfold bind, lift, ret.
  destruct (group_points all_points []) as [docs|e|] eqn:G;
    [|discriminate|discriminate].
  intros [= <- <-]. exists all_points, docs. auto.
Qed.

Lemma sum_chunks_app (a b : list Document) :
  sum_chunks (a ++ b) = sum_chunks a + sum_chunks b.
Proof.
  unfold sum_chunks. induction a as [|d a IH]; simpl; [reflexivity|].
  rewrite IH. lia.
Qed.

Lemma docs_incr_sum (k : hkey) (ds : documents_dict) :
  docs_mem k ds = true ->
  sum_chunks (map snd (docs_incr k ds)) = sum_chunks (map snd ds) + 1.
Proof.
  unfold docs_mem. induction ds as [|[k' d] ds IH]; simpl; [discriminate|].
  destruct (hkey_eqb k k') eqn:E; simpl.
  - intros _. unfold sum_chunks. simpl. lia.
  - intros H. unfold sum_chunks in *. simpl. rewrite (IH H). lia.
Qed.

Lemma docs_incr_counts (k : hkey) (ds : documents_dict) (kd : hkey * Document) :
  In kd (docs_incr k ds) ->
  In kd ds \/ exists d, In (k, d) ds /\ kd = (k, incr_chunks d).
Proof.
  induction ds as [|[k' d] ds IH]; simpl; [tauto|].
  destruct (hkey_eqb k k') eqn:E.
  - apply hkey_eqb_eq in E. subst k'.
    intros [<-|Hin]; [right; exists d; auto|left; auto].
  - intros [<-|Hin]; [left; auto|].
    destruct (IH Hin) as [I|(d0 & I & ->)]; [left; auto|].
    right. exists d0. auto.
Qed.

Lemma docs_incr_snoc_absent (k : hkey) (ds : documents_dict) (d : Document) :
  docs_mem k ds = false ->
  docs_incr k (ds ++ [(k, d)])%list = (ds ++ [(k, incr_chunks d)])%list.
Proof.
  unfold docs_mem. induction ds as [|[k0 d0] ds IH]; simpl.
  - intros _. now rewrite hkey_eqb_refl.
  - intros H. apply orb_false_iff in H as [H1 H2].
    rewrite H1. now rewrite IH.
Qed.

(** One iteration adds one chunk, and leaves no document without a chunk. *)
Lemma group_step_counts (docs : documents_dict) (p : Point) (k : hkey) :
  let docs1 := if negb (docs_mem k docs)
               then (docs ++ [(k, new_document p)])%list else docs in
  sum_chunks (map snd (docs_incr k docs1)) = sum_chunks (map snd docs) + 1
  /\ ((forall kd, In kd docs -> 1 <= chunks_count (snd kd)) ->
      forall kd, In kd (docs_incr k docs1) -> 1 <= chunks_count (snd kd)).
Proof.
  intros docs1. unfold docs1. destruct (docs_mem k docs) eqn:E; simpl.
  - split; [now apply docs_incr_sum|].
    intros Hpos kd Hin.
    destruct (docs_incr_counts k docs kd Hin) as [I|(d & I & ->)].
    + now apply Hpos.
    + specialize (Hpos _ I). simpl in *. lia.
  - rewrite (docs_incr_snoc_absent k docs _ E). split.
    + rewrite map_app, sum_chunks_app. unfold sum_chunks. simpl. lia.
    + intros Hpos kd Hin.
      apply in_app_iff in Hin as [I|[<-|[]]]; [now apply Hpos|].
      simpl. lia.
Qed.

Lemma group_points_counts (pts : list Point) :
  forall docs docs' : documents_dict,
    group_points pts docs = Ok docs' ->
    sum_chunks (map snd docs')
    = sum_chunks (map snd docs) + Z.of_nat (List.length pts)
    /\ ((forall kd, In kd docs -> 1 <= chunks_count (snd kd)) ->
        forall kd, In kd docs' -> 1 <= chunks_count (snd kd)).
Proof.
  induction pts as [|p pts IH]; intros docs docs'; simpl.
  - intros [= <-]. split; [lia|auto].
  - destruct (hash_key (filename_of p)) as [k| |]; [|discriminate|discriminate].
    intros G. destruct (IH _ _ G) as [Hs Hp].
    destruct (group_step_counts docs p k) as [Hs1 Hp1].
    split; [rewrite Hs, Hs1; lia|].
    intros Hpos. apply Hp. now apply Hp1.
Qed.

Lemma length_le_sum_chunks (ds : list Document) :
  (forall d, In d ds -> 1 <= chunks_count d) ->
  Z.of_nat (List.length ds) <= sum_chunks ds.
Proof.
  unfold sum_chunks. induction ds as [|d ds IH]; intros H; simpl; [lia|].
  specialize (IH (fun d' Hd => H d' (or_intror Hd))).
  specialize (H d (or_introl eq_refl)). lia.
Qed.

(** X14. In every listing that is returned, the chunk counts of the
    documents add up to [total_points], every document has at least one
    chunk, and [total_documents] is the number of documents listed, which is
    at most [total_points]. *)
Theorem chunk_counts_add_up
        (fuel : nat) (name : string) (st st' : Store) (r : DocumentListing) :
  list_documents_in_collection fuel name st = (Ok r, st') ->
  sum_chunks (documents r) = total_points r
  /\ (forall d, In d (documents r) -> 1 <= chunks_count d)
  /\ total_documents r = Z.of_nat (List.length (documents r))
  /\ total_documents r <= total_points r.
Proof.
  intros H.
  destruct (list_documents_inversion fuel name st st' r H)
    as (all_points & docs & G & ->).
  cbn [documents total_points total_documents].
  destruct (group_points_counts all_points [] docs G) as [Hs Hp].
  assert (Hpos : forall d, In d (map snd docs) -> 1 <= chunks_count d).
  { intros d Hd. apply in_map_iff in Hd as (kd & <- & Hin).
    apply Hp; [intros kd' []|exact Hin]. }
  assert (Hsum : sum_chunks (map snd docs) = Z.of_nat (List.length all_points)).
  { rewrite Hs. unfold sum_chunks. simpl. lia. }
  split; [exact Hsum|]. split; [exact Hpos|].
  split; [now rewrite length_map|].
  rewrite <- Hsum. rewrite <- (length_map snd docs).
  now apply length_le_sum_chunks.
Qed.

Lemma chunk_counts_add_up_witness :
  exists (r : DocumentListing) (st' : Store),
    list_documents_in_collection 1 "Curso_101" sample_store = (Ok r, st')
    /\ total_points r = 5
    /\ sum_chunks (documents r) = total_points r.
Proof.
  eexists. eexists.
  assert (E : list_documents_in_collection 1 "Curso_101" sample_store
              = (fst (list_documents_in_collection 1 "Curso_101" sample_store),
                 snd (list_documents_in_collection 1 "Curso_101" sample_store)))
    by apply surjective_pairing.
  cbv in E.
  refine (conj E (conj eq_refl _)).
  exact (proj1 (chunk_counts_add_up 1 "Curso_101" sample_store _ _ E)).
Defined.

Lemma docs_mem_keys (k : hkey) (ds : documents_dict) :
  docs_mem k ds = existsb (hkey_eqb k) (map fst ds).
Proof.
  unfold docs_mem. induction ds as [|[k' d] ds IH]; simpl; [reflexivity|].
  now rewrite IH.
Qed.

Lemma first_occurrences_ext (ks : list hkey) :
  forall s1 s2 : list hkey,
    (forall x, existsb (hkey_eqb x) s1 = existsb (hkey_eqb x) s2) ->
    first_occurrences s1 ks = first_occurrences s2 ks.
Proof.
  induction ks as [|k ks IH]; intros s1 s2 H; simpl; [reflexivity|].
  rewrite <- H. destruct (existsb (hkey_eqb k) s1).
  - now apply IH.
  - f_equal. apply IH. intros x. simpl. now rewrite H.
Qed.

(** The keys of the dict after the loop: those it had, then the new keys in
    the order in which the scan met them. *)
Lemma group_points_keys (pts : list Point) :
  forall docs docs' : documents_dict,
    group_points pts docs = Ok docs' ->
    map fst docs'
    = (map fst docs ++ first_occurrences (map fst docs) (point_keys pts))%list.
Proof.
  induction pts as [|p pts IH]; intros docs docs'; simpl.
  - intros [= <-]. now rewrite app_nil_r.
  - destruct (hash_key (filename_of p)) as [k| |]; [|discriminate|discriminate].
    intros G. rewrite (IH _ _ G), docs_incr_keys. simpl.
    rewrite <- docs_mem_keys.
    destruct (docs_mem k docs) eqn:E; simpl; [reflexivity|].
    rewrite map_app, <- app_assoc. simpl. do 2 f_equal.
    apply first_occurrences_ext. intros x.
    rewrite existsb_app. simpl. rewrite orb_false_r. apply orb_comm.
Qed.

(** X15. The documents are listed in the order in which the scan first met
    their filenames: on hashable filenames and with fuel for the scan, the
    keys of the filenames of the documents returned are the keys of the
    points, each at its first occurrence. *)
Theorem documents_in_first_encounter_order
        (fuel : nat) (st : Store) (name : string) (c : Collection) :
  find_collection name (collections st) = Some c ->
  (forall p, In p (col_points c) -> hashable p = true) ->
  (List.length (col_points c) < 100 * fuel)%nat ->
  exists r : DocumentListing,
    fst (list_documents_in_collection fuel name st) = Ok r
    /\ map (fun d => hash_key (filename d)) (documents r)
       = map (@Ok hkey) (first_occurrences [] (point_keys (col_points c))).
Proof.
  intros H Hh Hfuel.
  destruct (scroll_all_run name c fuel None [] (logged st [GetCollections]) H)
    as [calls Hscan]; [exact Hfuel|].
  cbn [or_start skipn app] in Hscan.
  destruct (group_points_grouped (col_points c) [] [] grouped_nil Hh)
    as (docs & Hgroup & G).
  cbn [app] in G.
  exists {| collection_name := name;
            total_documents := Z.of_nat (List.length docs);
            total_points := Z.of_nat (List.length (col_points c));
            documents := map snd docs |}.
  split.
  - unfold list_documents_in_collection.
    rewrite (present_continues _ _ _ c H).
    rewrite (bind_ok _ _ _ _ _ Hscan).
    unfold bind, lift, ret. now rewrite Hgroup.
  - cbn [documents]. rewrite (grouped_document_keys _ _ G).
    now rewrite (group_points_keys _ _ _ Hgroup).
Qed.

Lemma documents_in_first_encounter_order_witness :
  find_collection "Curso_101" (collections sample_store) = Some sample_collection /\
  (forall p, In p (col_points sample_collection) -> hashable p = true) /\
  (List.length (col_points sample_collection) < 100 * 1)%nat /\
  exists r : DocumentListing,
    fst (list_documents_in_collection 1 "Curso_101" sample_store) = Ok r
    /\ map (fun d => hash_key (filename d)) (documents r)
       = [Ok (HStr "a.pdf"); Ok (HStr "b.pdf")].
Proof.
  assert (Hh : forall p, In p (col_points sample_collection) -> hashable p = true).
  { intros p Hp. simpl in Hp.
    repeat (destruct Hp as [<-|Hp]; [reflexivity|]). contradiction. }
  assert (Hfuel : (List.length (col_points sample_collection) < 100 * 1)%nat).
  { simpl. lia. }
  refine (conj eq_refl (conj Hh (conj Hfuel _))).
  destruct (documents_in_first_encounter_order 1 sample_store "Curso_101"
              sample_collection eq_refl Hh Hfuel) as (r & E & K).
  exists r. split; [exact E|exact K].
Defined.

(** ** The process-wide manager *)

Lemma first_request_connects (client_error : ClientParams -> option exn)
      (cfg : Config) (r : manager_request) :
  client_error (client_arguments cfg) = None ->
  fst (serve_request client_error cfg r fresh_runtime) = Ok O
  /\ settled cfg (snd (serve_request client_error cfg r fresh_runtime)).
Proof.
  intros Hc. unfold client_arguments in Hc. simpl in Hc.
  destruct r; unfold serve_request, get_collection_manager,
    QdrantCollectionManager, manager_new, manager_init; simpl;
    rewrite Hc; simpl; (split; [reflexivity|]);
    unfold settled, client_arguments, connecting_line, connected_line; simpl;
    auto 10.
Qed.

Lemma settled_request (client_error : ClientParams -> option exn)
      (cfg : Config) (r : manager_request) (rt : Runtime) :
  settled cfg rt ->
  fst (serve_request client_error cfg r rt) = Ok O
  /\ settled cfg (snd (serve_request client_error cfg r rt)).
Proof.
  intros (Hi & Ho & Hc & Hm & Hs).
  destruct rt as [inst objs cls mgr out]. simpl in *. subst inst objs.
  destruct r; simpl.
  - unfold QdrantCollectionManager, manager_new, manager_init; simpl.
    split; [reflexivity|]. unfold settled; simpl. tauto.
  - unfold get_collection_manager, QdrantCollectionManager, manager_new,
      manager_init; simpl.
    destruct Hm as [-> | ->]; simpl;
      (split; [reflexivity|]); unfold settled; simpl; tauto.
Qed.

Lemma settled_requests (client_error : ClientParams -> option exn)
      (cfg : Config) (rs : list manager_request) :
  forall rt : Runtime,
    settled cfg rt ->
    Forall (fun m => m = Ok O) (fst (serve_requests client_error cfg rs rt))
    /\ settled cfg (snd (serve_requests client_error cfg rs rt)).
Proof.
  induction rs as [|r rs IH]; intros rt S; simpl; [auto|].
  destruct (settled_request client_error cfg r rt S) as [Hm S1].
  destruct (serve_request client_error cfg r rt) as [m rt1]. simpl in Hm, S1.
  destruct (IH rt1 S1) as [Hms S2].
  destruct (serve_requests client_error cfg rs rt1) as [ms rt2]. simpl in *.
  split; [constructor; assumption|exact S2].
Qed.

Lemma first_request_refused (client_error : ClientParams -> option exn)
      (cfg : Config) (r : manager_request) (e : exn) :
  client_error (client_arguments cfg) = Some e ->
  fst (serve_request client_error cfg r fresh_runtime) = Raise e
  /\ unconnected cfg 1 (snd (serve_request client_error cfg r fresh_runtime)).
Proof.
  intros Hc. unfold client_arguments in Hc. simpl in Hc.
  destruct r; unfold serve_request, get_collection_manager,
    QdrantCollectionManager, manager_new, manager_init; simpl;
    rewrite Hc; simpl; (split; [reflexivity|]);
    unfold unconnected, connecting_line; simpl; auto 10.
Qed.

Lemma unconnected_request (client_error : ClientParams -> option exn)
      (cfg : Config) (r : manager_request) (e : exn) (n : nat) (rt : Runtime) :
  client_error (client_arguments cfg) = Some e ->
  unconnected cfg n rt ->
  fst (serve_request client_error cfg r rt) = Raise e
  /\ unconnected cfg (S n) (snd (serve_request client_error cfg r rt)).
Proof.
  intros Hc (Hi & Ho & Hcl & Hm & Hs). unfold client_arguments in Hc.
  simpl in Hc.
  destruct rt as [inst objs cls mgr out]. simpl in *. subst inst objs cls mgr out.
  assert (R : (repeat (connecting_line cfg) n ++ [connecting_line cfg])%list
              = repeat (connecting_line cfg) (S n)).
  { simpl. now rewrite repeat_cons. }
  destruct r; unfold serve_request, get_collection_manager,
    QdrantCollectionManager, manager_new, manager_init; simpl;
    rewrite Hc; simpl; (split; [reflexivity|]);
    unfold unconnected; simpl; repeat split; exact R.
Qed.

Lemma unconnected_requests (client_error : ClientParams -> option exn)
      (cfg : Config) (e : exn) (rs : list manager_request) :
  client_error (client_arguments cfg) = Some e ->
  forall (n : nat) (rt : Runtime),
    unconnected cfg n rt ->
    Forall (fun m => m = Raise e) (fst (serve_requests client_error cfg rs rt))
    /\ unconnected cfg (n + List.length rs)
         (snd (serve_requests client_error cfg rs rt)).
Proof.
  intros Hc. induction rs as [|r rs IH]; intros n rt U; simpl.
  - rewrite Nat.add_0_r. auto.
  - destruct (unconnected_request client_error cfg r e n rt Hc U) as [Hm U1].
    destruct (serve_request client_error cfg r rt) as [m rt1]. simpl in Hm, U1.
    destruct (IH (S n) rt1 U1) as [Hms U2].
    destruct (serve_requests client_error cfg rs rt1) as [ms rt2]. simpl in *.
    split; [constructor; assumption|].
    now rewrite Nat.add_succ_r.
Qed.

(** X16. The manager is a singleton with one connection. Whatever non-empty
    sequence of constructions and of calls to [get_collection_manager] a
    fresh process serves: when the construction of the client succeeds,
    every request obtains the same object, one manager object is allocated,
    one client is constructed (for the configured host and port, with a
    timeout of 60) and the two connection lines are printed once; when the
    construction of the client raises, every request raises that exception,
    no client and no manager are kept, and each request prints the first
    line again. *)
Theorem manager_is_singleton
        (client_error : ClientParams -> option exn) (cfg : Config)
        (rs : list manager_request) :
  rs <> [] ->
  let out := serve_requests client_error cfg rs fresh_runtime in
  (client_error (client_arguments cfg) = None ->
   Forall (fun m => m = Ok O) (fst out)
   /\ instance_client (snd out) = [Some O]
   /\ clients (snd out) = [client_arguments cfg]
   /\ stdout (snd out) = [connecting_line cfg; connected_line])
  /\
  (forall e : exn,
      client_error (client_arguments cfg) = Some e ->
      Forall (fun m => m = Raise e) (fst out)
      /\ instance_client (snd out) = [None]
      /\ clients (snd out) = []
      /\ _collection_manager (snd out) = None
      /\ stdout (snd out) = repeat (connecting_line cfg) (List.length rs)).
Proof.
  intros Hne out. unfold out.
  destruct rs as [|r rs]; [contradiction|]. simpl. split.
  - intros Hc.
    destruct (first_request_connects client_error cfg r Hc) as [Hm S].
    destruct (serve_request client_error cfg r fresh_runtime) as [m rt1].
    simpl in Hm, S.
    destruct (settled_requests client_error cfg rs rt1 S)
      as [Hms (Hi & Ho & Hcl & _ & Hs)].
    destruct (serve_requests client_error cfg rs rt1) as [ms rt2]. simpl in *.
    split; [constructor; assumption|]. auto.
  - intros e Hc.
    destruct (first_request_refused client_error cfg r e Hc) as [Hm U].
    destruct (serve_request client_error cfg r fresh_runtime) as [m rt1].
    simpl in Hm, U.
    destruct (unconnected_requests client_error cfg e rs Hc 1 rt1 U)
      as [Hms (Hi & Ho & Hcl & Hmg & Hs)].
    destruct (serve_requests client_error cfg rs rt1) as [ms rt2]. simpl in *.
    split; [constructor; assumption|]. auto.
Qed.

Lemma manager_is_singleton_witness :
  [GetManager; Construct; GetManager] <> [] /\
  fst (serve_requests (fun _ => None) local_config
         [GetManager; Construct; GetManager] fresh_runtime)
  = [Ok O; Ok O; Ok O] /\
  stdout (snd (serve_requests (fun _ => None) local_config
                 [GetManager; Construct; GetManager] fresh_runtime))
  = [ "🔗 Conectando a Qdrant: localhost:6333";
      "✅ Cliente Qdrant inicializado" ] /\
  stdout (snd (serve_requests (fun _ => Some (ValueError "invalid port"))
                 local_config [GetManager; Construct; GetManager]
                 fresh_runtime))
  = [ "🔗 Conectando a Qdrant: localhost:6333";
      "🔗 Conectando a Qdrant: localhost:6333";
      "🔗 Conectando a Qdrant: localhost:6333" ].
Proof.
  assert (Hne : [GetManager; Construct; GetManager] <> []) by discriminate.
  destruct (manager_is_singleton (fun _ => None) local_config
              [GetManager; Construct; GetManager] Hne) as [Hok _].
  destruct (Hok eq_refl) as (_ & _ & _ & Hout).
  destruct (manager_is_singleton (fun _ => Some (ValueError "invalid port"))
              local_config [GetManager; Construct; GetManager] Hne)
    as [_ Hbad].
  destruct (Hbad _ eq_refl) as (_ & _ & _ & _ & Hout').
  refine (conj Hne (conj eq_refl (conj _ _))).
  - rewrite Hout. reflexivity.
  - rewrite Hout'. reflexivity.
Defined.
